(** * LioKorEdu checker: the grading session of [solution_checker.py]

    A shallow embedding of [src/solution_checker/solution_checker.py]:
    the result record, the two worker threads ([DockerBuildThread],
    [DockerTestThread]), their supervisors ([build_solution],
    [test_solution]), [check_solution] and [check_task_multiple_files].

    The container engine, the host file system and the wall clock are an
    explicit [World]; what the container answers is an oracle ([Docker]).
    A worker thread is a finite interaction tree ([Prog]) so that the
    supervisor can leave it blocked inside [exec_run] when its budget
    expires, kill the container and then let it unwind. *)

From Stdlib Require Import ZArith NArith Ascii String List Lia Bool.
From stdpp Require Import base option list strings gmap.

Local Open Scope Z_scope.

(** ** Python strings *)

Module Py.

(** The line terminator ['\n'] and the double quote. *)
Definition NL : ascii := "010"%char.
Definition DQ : ascii := "034"%char.
Definition TAB : ascii := "009"%char.
Definition nl : string := String NL EmptyString.
Definition dq : string := String DQ EmptyString.

(** [len(s)] *)
Definition len (s : string) : Z := Z.of_nat (String.length s).

(** [s[-1]]: the last character; [None] stands for [IndexError]. *)
Fixpoint last_char (s : string) : option ascii :=
  match s with
  | EmptyString => None
  | String c EmptyString => Some c
  | String _ s' => last_char s'
  end.

(** [s[0:-1]]: everything but the last character. *)
Fixpoint drop_last (s : string) : string :=
  match s with
  | EmptyString => EmptyString
  | String _ EmptyString => EmptyString
  | String c s' => String c (drop_last s')
  end.

(** [s.startswith(sub)] *)
Fixpoint startswith (sub s : string) : bool :=
  match sub, s with
  | EmptyString, _ => true
  | String a sub', String b s' => if Ascii.eqb a b then startswith sub' s' else false
  | String _ _, EmptyString => false
  end.

(** [s.find(sub)]: the lowest index at which [sub] occurs in [s], or [-1]. *)
Fixpoint find_from (i : Z) (s sub : string) : Z :=
  if startswith sub s then i
  else match s with
       | EmptyString => -1
       | String _ s' => find_from (i + 1) s' sub
       end.

Definition find (s sub : string) : Z := find_from 0 s sub.

(** Text is kept as its UTF-8 encoding: a [str] is the byte sequence that
    encodes it, so that [s[-1] == '\n'], [s[0:-1]] after a final ['\n'],
    equality, concatenation and the search for an ASCII needle read the same
    on the bytes as on the code points. *)

Definition in_range (lo hi : nat) (c : ascii) : bool :=
  ((lo <=? nat_of_ascii c) && (nat_of_ascii c <=? hi))%nat.

(** A continuation byte [80..BF]. *)
Definition continuation (c : ascii) : bool := in_range 128 191 c.

(** The first two bytes of a three-byte and of a four-byte sequence; the
    ranges leave out overlong forms, surrogates and code points above
    [10FFFF]. *)
Definition lead3 (c0 c1 : ascii) : bool :=
  (in_range 224 224 c0 && in_range 160 191 c1)
  || (in_range 225 236 c0 && continuation c1)
  || (in_range 237 237 c0 && in_range 128 159 c1)
  || (in_range 238 239 c0 && continuation c1).

Definition lead4 (c0 c1 : ascii) : bool :=
  (in_range 240 240 c0 && in_range 144 191 c1)
  || (in_range 241 243 c0 && continuation c1)
  || (in_range 244 244 c0 && in_range 128 143 c1).

(** Whether the bytes are well-formed UTF-8. *)
Fixpoint utf8_valid (b : string) : bool :=
  match b with
  | EmptyString => true
  | String c0 b1 =>
      if in_range 0 127 c0 then utf8_valid b1
      else
        match b1 with
        | EmptyString => false
        | String c1 b2 =>
            if in_range 194 223 c0 then continuation c1 && utf8_valid b2
            else
              match b2 with
              | EmptyString => false
              | String c2 b3 =>
                  if lead3 c0 c1 then continuation c2 && utf8_valid b3
                  else
                    match b3 with
                    | EmptyString => false
                    | String c3 b4 =>
                        lead4 c0 c1 && continuation c2 && continuation c3
                        && utf8_valid b4
                    end
              end
        end
  end.

(** [b.decode()]: the text the bytes encode; [None] stands for
    [UnicodeDecodeError]. *)
Definition decode (b : string) : option string :=
  if utf8_valid b then Some b else None.

(** [sub in s], as a proposition. *)
Definition contains (s sub : string) : Prop :=
  exists pre post : string, s = pre +:+ sub +:+ post.

End Py.

(** ** Status codes and the result record *)

Definition STATUS_OK : Z := 0.
Definition STATUS_CHECKING : Z := 1.
Definition STATUS_BUILD_ERROR : Z := 2.
Definition STATUS_RUNTIME_ERROR : Z := 3.
Definition STATUS_CHECK_ERROR : Z := 4.
Definition STATUS_RUNTIME_TIMEOUT : Z := 6.
Definition STATUS_BUILD_TIMEOUT : Z := 7.
Definition STATUS_LINT_ERROR : Z := 8.
Definition STATUS_DRAFT : Z := 9.

(** Durations are counted in clock ticks of 1e-4 s, the precision that
    [round(_, 4)] keeps. *)
Record CheckResult := mkCheckResult {
  check_time : N;
  build_time : N;
  check_result : Z;
  check_message : string;
  tests_passed : nat;
  tests_total : nat;
  lint_success : bool
}.

(** [CheckResult()] with every keyword argument at its default. *)
Definition CheckResult0 : CheckResult :=
  {| check_time := 0%N; build_time := 0%N; check_result := -1;
     check_message := EmptyString; tests_passed := 0%nat; tests_total := 0%nat;
     lint_success := false |}.

Definition set_check_time (v : N) (r : CheckResult) : CheckResult :=
  mkCheckResult v (build_time r) (check_result r) (check_message r)
    (tests_passed r) (tests_total r) (lint_success r).
Definition set_build_time (v : N) (r : CheckResult) : CheckResult :=
  mkCheckResult (check_time r) v (check_result r) (check_message r)
    (tests_passed r) (tests_total r) (lint_success r).
Definition set_check_result (v : Z) (r : CheckResult) : CheckResult :=
  mkCheckResult (check_time r) (build_time r) v (check_message r)
    (tests_passed r) (tests_total r) (lint_success r).
Definition set_check_message (v : string) (r : CheckResult) : CheckResult :=
  mkCheckResult (check_time r) (build_time r) (check_result r) v
    (tests_passed r) (tests_total r) (lint_success r).
Definition set_tests_passed (v : nat) (r : CheckResult) : CheckResult :=
  mkCheckResult (check_time r) (build_time r) (check_result r) (check_message r)
    v (tests_total r) (lint_success r).
Definition set_tests_total (v : nat) (r : CheckResult) : CheckResult :=
  mkCheckResult (check_time r) (build_time r) (check_result r) (check_message r)
    (tests_passed r) v (lint_success r).
Definition set_lint_success (v : bool) (r : CheckResult) : CheckResult :=
  mkCheckResult (check_time r) (build_time r) (check_result r) (check_message r)
    (tests_passed r) (tests_total r) v.

(** ** Output comparison (lines 130-134 of [DockerTestThread.run]) *)

(** A test vector is the pair [test[0], test[1]]. *)
Definition TestVector : Type := string * string.

(** [if len(answer) > 0 and answer[-1] == '\n' and expected[-1] != '\n':
        answer = answer[0:-1]]
    The conjunction is evaluated left to right, so [expected[-1]] is only
    reached for an answer that ends in a line terminator; [None] is the
    [IndexError] it raises on an empty [expected]. *)
Definition canonicalize (answer expected : string) : option string :=
  if (0 <? Py.len answer) && bool_decide (Py.last_char answer = Some Py.NL) then
    match Py.last_char expected with
    | None => None
    | Some c =>
        if negb (bool_decide (c = Py.NL)) then Some (Py.drop_last answer)
        else Some answer
    end
  else Some answer.

(** ['For "{}" expected "{}", but got "{}"'.format(test[0], test[1], answer)] *)
Definition mismatch_message (test : TestVector) (answer : string) : string :=
  "For " +:+ Py.dq +:+ fst test +:+ Py.dq +:+ " expected " +:+ Py.dq +:+ snd test
    +:+ Py.dq +:+ ", but got " +:+ Py.dq +:+ answer +:+ Py.dq.

(** ** The collaborators: container engine, host files, wall clock *)

(** [ExecResult(exit_code, output)]; [output] holds the bytes the command
    printed. *)
Record ExecResult := mkExecResult { exit_code : Z; output : string }.

(** What the container does with one [exec_run]: how long the command runs,
    what the call gives back ([None]: the engine raises), and the container's
    status and files once the call is over. *)
Record Reply := mkReply {
  duration : N;
  returns : option ExecResult;
  status_after : string;
  files_after : gmap string string
}.

(** The container handed out by [client.containers.run]: its reply to the
    n-th [exec_run], what an [exec_run] gives back when the container is
    killed under it ([None]: it raises), and whether [put_archive] works. *)
Record Docker := mkDocker {
  reply : nat -> Reply;
  reply_when_killed : option ExecResult;
  put_archive_ok : bool
}.

(** Every call that leaves the checker, in the order it is made. *)
Inductive Event : Type :=
| EvCreateFile (path content : string)
| EvExecRun (command workdir : string) (environment : list (string * string))
| EvContainersGet
| EvGetFile (path : string)
| EvKill
| EvContainersRun (image : string)
| EvPutArchive
| EvRemoveContainer
| EvLint
| EvRmtree (path : string).

Record World := mkWorld {
  now : N;
  container_status : string;
  container_files : gmap string string;
  exec_calls : nat;
  host_files : gmap string string;
  trace : list Event
}.

Definition log (e : Event) (w : World) : World :=
  mkWorld (now w) (container_status w) (container_files w) (exec_calls w)
    (host_files w) (trace w ++ [e]).

(** Modelled from the spec: [create_file] of [solution_checker.utils] is not
    part of the sources; the spec has it write the text to the input location
    "overwriting any prior value". *)
Definition create_file (path content : string) (w : World) : World :=
  log (EvCreateFile path content)
    (mkWorld (now w) (container_status w) (container_files w) (exec_calls w)
       (<[path := content]> (host_files w)) (trace w)).

(** Modelled from the spec: [get_file_from_container] of
    [solution_checker.docker_utils] is not part of the sources; the spec has
    it give the file's content, or nothing when the file is absent. *)
Definition get_file_from_container (path : string) (w : World) : option string :=
  container_files w !! path.

(** The container has answered one more [exec_run], at time [t]. *)
Definition answered (t : N) (rp : Reply) (w : World) : World :=
  mkWorld t (status_after rp) (files_after rp) (S (exec_calls w))
    (host_files w) (trace w).

(** The call is still running when the supervisor's wait ends at [t]. *)
Definition pending_at (t : N) (w : World) : World :=
  mkWorld t (container_status w) (container_files w) (S (exec_calls w))
    (host_files w) (trace w).

(** [container.kill()] *)
Definition kill (w : World) : World :=
  log EvKill
    (mkWorld (now w) "exited" (container_files w) (exec_calls w)
       (host_files w) (trace w)).

(** ** Worker threads as interaction trees *)

(** The body of a [Thread.run]: [Ret r] is [self.result = r; return],
    [Raise] an exception that ends the thread with [result] still [None]. *)
Inductive Prog (R : Type) : Type :=
| Ret (r : R)
| Raise (exn : string)
| CreateFile (path content : string) (k : Prog R)
| ExecRun (command workdir : string) (environment : list (string * string))
    (k : ExecResult -> Prog R)
| ContainersGet (k : string -> Prog R)
| GetFile (path : string) (k : option string -> Prog R).

Arguments Ret {R} r.
Arguments Raise {R} exn.
Arguments CreateFile {R} path content k.
Arguments ExecRun {R} command workdir environment k.
Arguments ContainersGet {R} k.
Arguments GetFile {R} path k.

Fixpoint bind {A B : Type} (p : Prog A) (f : A -> Prog B) : Prog B :=
  match p with
  | Ret a => f a
  | Raise e => Raise e
  | CreateFile path content k => CreateFile path content (bind k f)
  | ExecRun c wd env k => ExecRun c wd env (fun er => bind (k er) f)
  | ContainersGet k => ContainersGet (fun s => bind (k s) f)
  | GetFile path k => GetFile path (fun o => bind (k o) f)
  end.

(** Where a thread stands: it has ended (with the [result] attribute it
    leaves behind), or it is still inside an [exec_run]. *)
Inductive Outcome (R : Type) : Type :=
| Finished (result : option R)
| Blocked (k : ExecResult -> Prog R).

Arguments Finished {R} result.
Arguments Blocked {R} k.

(** [thread.result] as the supervisor reads it. *)
Definition result_of {R : Type} (o : Outcome R) : option R :=
  match o with
  | Finished r => r
  | Blocked _ => None
  end.

Definition overruns (deadline : option N) (t : N) : bool :=
  match deadline with
  | Some dl => (dl <? t)%N
  | None => false
  end.

(** Run a thread until it ends or until [deadline]; only [exec_run] takes
    time. An [exec_run] that would end after the deadline leaves the thread
    blocked at the deadline. *)
Fixpoint interp {R : Type} (d : Docker) (deadline : option N) (p : Prog R)
    (w : World) : Outcome R * World :=
  match p with
  | Ret r => (Finished (Some r), w)
  | Raise _ => (Finished None, w)
  | CreateFile path content k => interp d deadline k (create_file path content w)
  | ExecRun c wd env k =>
      let rp := reply d (exec_calls w) in
      let w1 := log (EvExecRun c wd env) w in
      let t := (now w + duration rp)%N in
      if overruns deadline t then
        (Blocked k, pending_at (default t deadline) w1)
      else
        match returns rp with
        | None => (Finished None, answered t rp w1)
        | Some er => interp d deadline (k er) (answered t rp w1)
        end
  | ContainersGet k =>
      interp d deadline (k (container_status w)) (log EvContainersGet w)
  | GetFile path k =>
      interp d deadline (k (get_file_from_container path w))
        (log (EvGetFile path) w)
  end.

(** [thread.start(); thread.join(timeout)] *)
Definition start_join {R : Type} (d : Docker) (timeout : N) (run : Prog R)
    (w : World) : Outcome R * World :=
  interp d (Some (now w + timeout)%N) run w.

(** [thread.join()] without a timeout. It is only called once the container
    has been killed: a blocked [exec_run] then gives back
    [reply_when_killed] and the thread runs to its end. *)
Definition join {R : Type} (d : Docker) (o : Outcome R) (w : World)
    : option R * World :=
  match o with
  | Finished r => (r, w)
  | Blocked k =>
      match reply_when_killed d with
      | None => (None, w)
      | Some er => let '(o', w') := interp d None (k er) w in (result_of o', w')
      end
  end.

(** ** The two worker threads *)

(** [DockerBuildThread.run] *)
Definition DockerBuildThread_run (source_path : string) : Prog ExecResult :=
  let build_command := "make build" in
  ExecRun build_command source_path [] (fun build_result => Ret build_result).

(** [DockerBuildThread.terminate] *)
Definition DockerBuildThread_terminate (w : World) : World := kill w.

Definition source_path : string := "/root/source".
Definition input_file_path : string := "/root/input/input.txt".
Definition output_file_path : string := source_path +:+ "/output.txt".

Definition run_command : string :=
  "/bin/bash -c " +:+ Py.dq +:+ "rm -f " +:+ output_file_path +:+ " && cat "
    +:+ input_file_path +:+ " | make -s ARGS='" +:+ input_file_path +:+ " "
    +:+ output_file_path +:+ "' run" +:+ Py.dq.

Definition run_environment : list (string * string) :=
  [("ARGS", input_file_path +:+ " " +:+ output_file_path);
   ("input_path", input_file_path);
   ("output_path", output_file_path)].

(** One turn of the loop of [DockerTestThread.run] (lines 96-143), with the
    accumulator [result] and the counter [tests_passed] as they stand when the
    turn starts. [Ret (Some r)] is [self.result = r; return]; [Ret None] falls
    through to [tests_passed += 1]. *)
Definition run_vector (stdin_file_path : string) (result : CheckResult)
    (tests_passed : nat) (test : TestVector) : Prog (option CheckResult) :=
  let stdin := fst test in
  let expected := snd test in
  CreateFile stdin_file_path (stdin +:+ Py.nl)
  (ExecRun run_command source_path run_environment (fun execute_result =>
   ContainersGet (fun status =>
   if bool_decide (status = "exited") then
     Ret (Some (set_tests_passed tests_passed
                  (set_check_result STATUS_CHECK_ERROR result)))
   else
     match Py.decode (output execute_result) with
     | None => Raise "UnicodeDecodeError"
     | Some stdout =>
         if negb (exit_code execute_result =? 0) then
           Ret (Some (set_check_message stdout
                        (set_check_result STATUS_RUNTIME_ERROR result)))
         else
           GetFile output_file_path (fun fout =>
           let answer := match fout with Some f => f | None => stdout end in
           match canonicalize answer expected with
           | None => Raise "IndexError"
           | Some answer =>
               if negb (bool_decide (answer = expected)) then
                 let msg := mismatch_message test answer in
                 Ret (Some (set_tests_passed tests_passed
                              (set_check_message msg
                                 (set_check_result STATUS_CHECK_ERROR result))))
               else Ret None
           end)
     end))).

(** [for test in self.tests: ...] and the two statements after the loop. *)
Fixpoint run_loop (stdin_file_path : string) (result : CheckResult)
    (tests_passed : nat) (tests : list TestVector) : Prog CheckResult :=
  match tests with
  | [] =>
      Ret (set_tests_passed tests_passed (set_check_result STATUS_OK result))
  | test :: rest =>
      bind (run_vector stdin_file_path result tests_passed test) (fun stop =>
        match stop with
        | Some r => Ret r
        | None => run_loop stdin_file_path result (S tests_passed) rest
        end)
  end.

(** [DockerTestThread.run] *)
Definition DockerTestThread_run (stdin_file_path : string)
    (tests : list TestVector) : Prog CheckResult :=
  let tests_passed := 0%nat in
  let result := set_tests_total (length tests) CheckResult0 in
  run_loop stdin_file_path result tests_passed tests.

(** [DockerTestThread.terminate] *)
Definition DockerTestThread_terminate (w : World) : World :=
  kill (log EvContainersGet w).

(** ** Supervisors and the session *)

(** What a function of the main thread hands back: a result record, or the
    exception it raises. *)
Inductive Session : Type :=
| Returned (r : CheckResult)
| Raised (msg : string).

Section Checker.

(** [config.DEFAULT_BUILD_TIMEOUT] and [config.DEFAULT_TEST_TIMEOUT]. *)
Variable BUILD_TIMEOUT : N.
Variable RUNTIME_TIMEOUT : N.

(** The packaging and static-analysis collaborators: [files_to_tar] ([None]
    when it raises), [lint_dict] and [lint_errors_to_str]. *)
Variable files_to_tar : gmap string string -> string -> option string.
Variable Finding : Type.
Variable lint_dict : gmap string string -> list Finding.
Variable lint_errors_to_str : list Finding -> string.

(** [os.getcwd()] and [str(uuid1())]. *)
Variable cwd : string.
Variable solution_dir : string.

Variable d : Docker.

Definition build_solution (w : World) : option ExecResult * N * World :=
  let build_thread := DockerBuildThread_run "/root/source" in
  let start_time := now w in
  let '(o, w) := start_join d BUILD_TIMEOUT build_thread w in
  let build_time := (now w - start_time)%N in
  let compile_result := result_of o in
  match compile_result with
  | None =>
      let w := DockerBuildThread_terminate w in
      let '(_, w) := join d o w in
      (compile_result, build_time, w)
  | Some _ => (compile_result, build_time, w)
  end.

Definition test_solution (stdin_file_path : string) (tests : list TestVector)
    (w : World) : option CheckResult * N * World :=
  let test_thread := DockerTestThread_run stdin_file_path tests in
  let start_time := now w in
  let '(o, w) :=
    start_join d (RUNTIME_TIMEOUT * N.of_nat (length tests))%N test_thread w in
  let test_time := (now w - start_time)%N in
  match result_of o with
  | None =>
      let w := DockerTestThread_terminate w in
      let '(result_after_join, w) := join d o w in
      (result_after_join, test_time, w)
  | Some r => (Some r, test_time, w)
  end.

(** The part of [check_solution] after the build phase (lines 206-215). *)
Definition test_phase (stdin_file_path : string) (tests : list TestVector)
    (build_time : N) (w : World) : CheckResult * World :=
  let '(test_result, test_time, w) := test_solution stdin_file_path tests w in
  let test_result :=
    match test_result with
    | None => set_check_result STATUS_RUNTIME_TIMEOUT CheckResult0
    | Some r => r
    end in
  let result := test_result in
  let result := set_check_time test_time result in
  let result := set_build_time build_time result in
  (result, w).

(** [check_solution] runs in the main thread: the [decode] of line 198 can
    raise out of it. *)
Definition check_solution (stdin_file_path : string) (tests : list TestVector)
    (need_to_build : bool) (w : World) : Session * World :=
  if need_to_build then
    let '(build_result, build_time, w) := build_solution w in
    match build_result with
    | None =>
        (Returned
           (set_tests_total (length tests)
              (set_check_result STATUS_BUILD_TIMEOUT
                 (set_build_time build_time CheckResult0))), w)
    | Some br =>
        if negb (exit_code br =? 0) then
          match Py.decode (output br) with
          | None => (Raised "UnicodeDecodeError", w)
          | Some msg =>
              (Returned
                 (set_tests_total (length tests)
                    (set_check_message msg
                       (set_check_result STATUS_BUILD_ERROR
                          (set_build_time build_time CheckResult0)))), w)
          end
        else
          let '(result, w) := test_phase stdin_file_path tests build_time w in
          (Returned result, w)
    end
  else
    let '(result, w) := test_phase stdin_file_path tests 0%N w in
    (Returned result, w).

(** [client.containers.run('liokorcode_checker', ...)]: a fresh container. *)
Definition containers_run (w : World) : World :=
  log (EvContainersRun "liokorcode_checker")
    (mkWorld (now w) "running" ∅ 0%nat (host_files w) (trace w)).

(** Modelled from the spec: [remove_container] of
    [solution_checker.docker_utils] is not part of the sources; it releases
    the container, which the model records as a call. *)
Definition remove_container (w : World) : World := log EvRemoveContainer w.

(** Lines 257-263: the static analysis of a passing submission. *)
Definition lint_phase (source_code : gmap string string) (result : CheckResult)
    (w : World) : CheckResult * World :=
  if check_result result =? STATUS_OK then
    let w := log EvLint w in
    let lint_errors := lint_dict source_code in
    let str_lint := lint_errors_to_str lint_errors in
    let result := set_lint_success (Py.len str_lint =? 0) result in
    if negb (lint_success result) then
      (set_check_message (check_message result +:+ Py.nl +:+ str_lint) result, w)
    else (result, w)
  else (result, w).

(** [makefile.find('run:') == -1] and [makefile.find('build:') != -1]. *)
Definition lacks_run (makefile : string) : bool := Py.find makefile "run:" =? -1.
Definition need_to_build_of (makefile : string) : bool :=
  negb (Py.find makefile "build:" =? -1).

(** Lines 227-268 of [check_task_multiple_files]: everything after the
    recipe has been validated. *)
Definition provision_and_grade (source_code : gmap string string)
    (tests : list TestVector) (need_to_build : bool) (w : World)
    : Session * World :=
  match files_to_tar source_code "source/" with
  | None => (Raised "Unable to parse source code!", w)
  | Some tar_source =>
      let solution_path := cwd +:+ "/solutions/" +:+ solution_dir in
      let solution_path_input := solution_path +:+ "/input" in
      let stdin_file_path := solution_path_input +:+ "/input.txt" in
      let w := containers_run w in
      let w := log EvPutArchive w in
      if negb (put_archive_ok d) then
        (Raised "Unable to create requested filesystem!", remove_container w)
      else
        match check_solution stdin_file_path tests need_to_build w with
        | (Raised exn, w) => (Raised exn, w)
        | (Returned result, w) =>
            let '(result, w) := lint_phase source_code result w in
            let w := log (EvRmtree solution_path) w in
            let w := remove_container w in
            (Returned result, w)
        end
  end.

Definition no_makefile_result : CheckResult :=
  set_check_message "No Makefile found!"
    (set_check_result STATUS_BUILD_ERROR CheckResult0).

Definition no_run_result : CheckResult :=
  set_check_message ("Makefile must contain " +:+ Py.dq +:+ "run:" +:+ Py.dq)
    (set_check_result STATUS_BUILD_ERROR CheckResult0).

Definition check_task_multiple_files (source_code : gmap string string)
    (tests : list TestVector) (w : World) : Session * World :=
  match source_code !! "Makefile" with
  | None => (Returned no_makefile_result, w)
  | Some makefile =>
      if lacks_run makefile then (Returned no_run_result, w)
      else
        let need_to_build := need_to_build_of makefile in
        provision_and_grade source_code tests need_to_build w
  end.

End Checker.

(** ** Vocabulary of the statements *)

(** The [i]-th run command ends normally with exit code 0, leaves the
    container alive and has the raw answer [a]: the artifact file if there is
    one, else the captured output as it is. Whether that output decodes is
    left open; [yields] below adds it. *)
Definition produces (d : Docker) (i : nat) (a : string) : Prop :=
  exists er : ExecResult,
    returns (reply d i) = Some er /\
    status_after (reply d i) <> "exited" /\
    exit_code er = 0 /\
    a = default (output er) (files_after (reply d i) !! output_file_path).

(** The [i]-th run command [produces] an answer that compares equal to the
    expected output of [test]. *)
Definition passes (d : Docker) (i : nat) (test : TestVector) : Prop :=
  exists a : string, produces d i a /\ canonicalize a (snd test) = Some (snd test).

(** The [i]-th run command ends normally with exit code 0 in a live
    container, its output decodes, and the answer obtained is [a]: the
    artifact file if there is one, else the decoded output. *)
Definition yields (d : Docker) (i : nat) (a : string) : Prop :=
  exists (er : ExecResult) (stdout : string),
    returns (reply d i) = Some er /\
    status_after (reply d i) <> "exited" /\
    Py.decode (output er) = Some stdout /\
    exit_code er = 0 /\
    a = default stdout (files_after (reply d i) !! output_file_path).

(** The [i]-th run command yields an answer that, once canonicalized, equals
    the expected output of [test]. *)
Definition vector_passes (d : Docker) (i : nat) (test : TestVector) : Prop :=
  exists a : string, yields d i a /\ canonicalize a (snd test) = Some (snd test).

(** The world after the input file, the [exec_run] and the status query of
    one turn of the loop. *)
Definition after_exec (d : Docker) (stdin_file_path : string) (test : TestVector)
    (w : World) : World :=
  let w0 := create_file stdin_file_path (fst test +:+ Py.nl) w in
  let rp := reply d (exec_calls w0) in
  log EvContainersGet
    (answered (now w0 + duration rp)%N rp
       (log (EvExecRun run_command source_path run_environment) w0)).

(** The world after a turn that also fetched the artifact. *)
Definition after_fetch (d : Docker) (stdin_file_path : string) (test : TestVector)
    (w : World) : World :=
  log (EvGetFile output_file_path) (after_exec d stdin_file_path test w).

(** The world after the vectors of [passed] have been run and fetched, one
    after the other, and nothing else has happened. *)
Fixpoint after_passes (d : Docker) (stdin_file_path : string)
    (passed : list TestVector) (w : World) : World :=
  match passed with
  | [] => w
  | t :: ts => after_passes d stdin_file_path ts (after_fetch d stdin_file_path t w)
  end.

(** From [w] to [w'] calls were made, none of them to the static analysis. *)
Definition no_lint_between (w w' : World) : Prop :=
  exists evs : list Event,
    trace w' = trace w ++ evs /\ Forall (fun e => e <> EvLint) evs.

(** The thread has not ended: it is inside an [exec_run]. *)
Definition still_running {R : Type} (o : Outcome R) : bool :=
  match o with
  | Blocked _ => true
  | Finished _ => false
  end.

(** *** The recipe as the spec words it

    Spec, section 4.4: "the submission must declare a run target". These
    definitions read the recipe the way make does, to compare that wording
    with the text search of the code: a rule line is
    [targets : prerequisites], a line that starts with a tab belongs to a
    recipe, and [#] starts a comment. *)

Fixpoint split_on (sep : ascii) (s : string) : list string :=
  match s with
  | EmptyString => [EmptyString]
  | String c s' =>
      if Ascii.eqb c sep then EmptyString :: split_on sep s'
      else match split_on sep s' with
           | [] => [String c EmptyString]
           | word :: words => String c word :: words
           end
  end.

(** The text before the first [sep], if [sep] occurs. *)
Fixpoint before (sep : ascii) (s : string) : option string :=
  match s with
  | EmptyString => None
  | String c s' =>
      if Ascii.eqb c sep then Some EmptyString
      else option_map (String c) (before sep s')
  end.

Definition rule_targets (line : string) : list string :=
  match line with
  | EmptyString => []
  | String c _ =>
      if Ascii.eqb c Py.TAB then []
      else
        let code := default line (before "#"%char line) in
        match before ":"%char code with
        | Some names => split_on " "%char names
        | None => []
        end
  end.

Definition spec_declares_target (makefile target : string) : bool :=
  existsb (fun line => existsb (String.eqb target) (rule_targets line))
    (split_on Py.NL makefile).

(** ** [CheckResult.json] (lines 52-58) *)

(** The values a result record holds: durations, integers, text, flags. *)
Inductive PyValue : Type :=
| PyFloat (ticks : N)
| PyInt (n : Z)
| PyStr (s : string)
| PyBool (b : bool).

(** [self.__dict__.items()]: the attributes in the order [__init__] assigns
    them. *)
Definition CheckResult_items (r : CheckResult) : list (string * PyValue) :=
  [("check_time", PyFloat (check_time r));
   ("build_time", PyFloat (build_time r));
   ("check_result", PyInt (check_result r));
   ("check_message", PyStr (check_message r));
   ("tests_passed", PyInt (Z.of_nat (tests_passed r)));
   ("tests_total", PyInt (Z.of_nat (tests_total r)));
   ("lint_success", PyBool (lint_success r))].

(** [c.upper()] and [c.lower()] of one ASCII character. The case mapping of
    Python is the one of Unicode; these definitions give it for bytes below
    128 only and leave the other bytes as they are, so what is stated through
    them is stated for ASCII names. *)
Definition upper (c : ascii) : ascii :=
  let n := nat_of_ascii c in
  if ((97 <=? n) && (n <=? 122))%nat then ascii_of_nat (n - 32) else c.

Definition lower (c : ascii) : ascii :=
  let n := nat_of_ascii c in
  if ((65 <=? n) && (n <=? 90))%nat then ascii_of_nat (n + 32) else c.

Fixpoint lower_all (s : string) : string :=
  match s with
  | EmptyString => EmptyString
  | String c s' => String (lower c) (lower_all s')
  end.

(** [word.capitalize()] of an ASCII word: the first character in upper
    case, the rest in lower case. *)
Definition capitalize (word : string) : string :=
  match word with
  | EmptyString => EmptyString
  | String c rest => String (upper c) (lower_all rest)
  end.

(** [''.join(words)] *)
Definition join_words (words : list string) : string :=
  fold_right String.append EmptyString words.

(** The two statements that rename a key; [key.split('_')] is
    [split_on "_" key], which is never empty, so [key_split[0]] exists. *)
Definition new_key (key : string) : string :=
  let key_split := split_on "_"%char key in
  hd EmptyString key_split +:+ join_words (map capitalize (tl key_split)).

(** The dictionary [json_data] that [json] hands to [json.dumps]. *)
Definition json_data (r : CheckResult) : gmap string PyValue :=
  fold_left (fun data item => <[new_key (fst item) := snd item]> data)
    (CheckResult_items r) ∅.

(** [c in s] for a character. *)
Fixpoint has_char (c : ascii) (s : string) : bool :=
  match s with
  | EmptyString => false
  | String c' s' => Ascii.eqb c c' || has_char c s'
  end.

(** [first + '_' + w1 + '_' + w2 + ...] *)
Definition snake (first : string) (words : list string) : string :=
  first +:+ join_words (map (String "_"%char) words).

(** ** Invariants of threads *)

(** Every result the thread can leave satisfies [P], whatever the
    collaborators answer. *)
Fixpoint leaves {R : Type} (P : R -> Prop) (p : Prog R) : Prop :=
  match p with
  | Ret r => P r
  | Raise _ => True
  | CreateFile _ _ k => leaves P k
  | ExecRun _ _ _ k => forall er, leaves P (k er)
  | ContainersGet k => forall status, leaves P (k status)
  | GetFile _ k => forall fout, leaves P (k fout)
  end.

(** Every call the thread can make satisfies [P]. *)
Fixpoint emits {R : Type} (P : Event -> Prop) (p : Prog R) : Prop :=
  match p with
  | Ret _ => True
  | Raise _ => True
  | CreateFile path content k => P (EvCreateFile path content) /\ emits P k
  | ExecRun c wd env k => P (EvExecRun c wd env) /\ forall er, emits P (k er)
  | ContainersGet k => P EvContainersGet /\ forall status, emits P (k status)
  | GetFile path k => P (EvGetFile path) /\ forall fout, emits P (k fout)
  end.

(** From [w] to [w'] calls were made, all of them satisfying [P]. *)
Definition calls_between (P : Event -> Prop) (w w' : World) : Prop :=
  exists evs : list Event, trace w' = trace w ++ evs /\ Forall P evs.

(** The calls of the test runner: writing the input file, the run command,
    the status query and the fetch of the artifact. *)
Definition runner_call (stdin_file_path : string) (e : Event) : Prop :=
  match e with
  | EvCreateFile path _ => path = stdin_file_path
  | EvExecRun c wd env =>
      c = run_command /\ wd = source_path /\ env = run_environment
  | EvContainersGet => True
  | EvGetFile path => path = output_file_path
  | _ => False
  end.

(** The calls of the build and test phases. *)
Definition phase_call (stdin_file_path : string) (e : Event) : Prop :=
  runner_call stdin_file_path e \/ e = EvKill \/
  e = EvExecRun "make build" "/root/source" [].

(** What a result left by the test runner for [total] vectors looks like. *)
Definition runner_result (total : nat) (r : CheckResult) : Prop :=
  tests_total r = total /\
  (tests_passed r <= total)%nat /\
  lint_success r = false /\
  (check_result r = STATUS_OK \/ check_result r = STATUS_CHECK_ERROR \/
   check_result r = STATUS_RUNTIME_ERROR) /\
  (check_result r = STATUS_OK ->
   tests_passed r = total /\ check_message r = EmptyString).

(** The verdicts a session hands out. *)
Definition graded_verdict (v : Z) : Prop :=
  v = STATUS_OK \/ v = STATUS_BUILD_ERROR \/ v = STATUS_BUILD_TIMEOUT \/
  v = STATUS_RUNTIME_ERROR \/ v = STATUS_RUNTIME_TIMEOUT \/
  v = STATUS_CHECK_ERROR.

(** The result of a graded session over [total] vectors. *)
Definition graded_result (total : nat) (r : CheckResult) : Prop :=
  graded_verdict (check_result r) /\
  (tests_passed r <= tests_total r)%nat /\
  (lint_success r = true -> check_result r = STATUS_OK) /\
  (check_result r = STATUS_OK ->
   tests_passed r = total /\ tests_total r = total).

(** ** Concrete sessions *)

Module Scenario.

Definition world0 : World := mkWorld 0%N "running" ∅ 0%nat ∅ [].

(** A run command that ends after [t] ticks with exit code [code], prints
    [out] and writes no artifact; the container stays alive. *)
Definition prints (t : N) (code : Z) (out : string) : Reply :=
  mkReply t (Some (mkExecResult code out)) "running" ∅.

(** A run command that ends after [t] ticks with exit code 0 and leaves
    [text] in the artifact file. *)
Definition writes (t : N) (text : string) : Reply :=
  mkReply t (Some (mkExecResult 0 EmptyString)) "running"
    {[ output_file_path := text ]}.

(** A container that answers with [rs] in turn and raises after that;
    [killed] is what an [exec_run] gives back when the container is killed
    under it. *)
Definition container (rs : list Reply) (killed : option ExecResult) : Docker :=
  mkDocker (fun i => nth i rs (mkReply 0%N None "exited" ∅)) killed true.

(** Budgets of 10 s per build and 5 s per test, in ticks of 1e-4 s; a
    packager that always succeeds; an analyser whose findings are the
    contents of the file [lint], if the submission has one, rendered one
    per line. *)
Definition BUILD_TIMEOUT : N := 100000.
Definition RUNTIME_TIMEOUT : N := 50000.
Definition files_to_tar (source_code : gmap string string) (prefix : string)
    : option string := Some "tar".
Definition lint_dict (source_code : gmap string string) : list string :=
  match source_code !! "lint" with
  | Some finding => [finding]
  | None => []
  end.
Definition lint_errors_to_str (findings : list string) : string :=
  fold_right (fun finding rest => finding +:+ Py.nl +:+ rest) EmptyString findings.

Definition session (d : Docker) (source_code : gmap string string)
    (tests : list TestVector) : Session * World :=
  check_task_multiple_files BUILD_TIMEOUT RUNTIME_TIMEOUT files_to_tar string
    lint_dict lint_errors_to_str "/srv/checker" "b4c0ffee" d source_code tests
    world0.

Definition stdin_file_path : string :=
  "/srv/checker/solutions/b4c0ffee/input/input.txt".

Definition run_only : gmap string string :=
  {[ "Makefile" := "run:" +:+ Py.nl +:+ String Py.TAB "python3 main.py" ]}.

Definition build_and_run : gmap string string :=
  {[ "Makefile" := "build:" +:+ Py.nl +:+ String Py.TAB "gcc main.c" +:+ Py.nl
                   +:+ "run:" +:+ Py.nl +:+ String Py.TAB "./a.out" ]}.

(** A recipe whose only rule is [prerun]. *)
Definition prerun_only : gmap string string :=
  {[ "Makefile" := "prerun:" +:+ Py.nl +:+ String Py.TAB "true" ]}.

Definition two_vectors : list TestVector := [("1", "1"); ("2", "2")].


(** The first vector passes, the second run exits with code 1. *)
Definition crash_on_second : Docker :=
  container [prints 10%N 0 ("1" +:+ Py.nl); prints 10%N 1 "Traceback"] None.

(** The first vector passes; the second run is still going when the
    budget of the test phase ends, and the [exec_run] gives back exit code
    137 once the container is killed. *)
Definition hangs_on_second : Docker :=
  container [prints 10%N 0 ("1" +:+ Py.nl); prints 1000000%N 0 EmptyString]
    (Some (mkExecResult 137 EmptyString)).

(** The same, with an engine that raises from the [exec_run] it kills. *)
Definition hangs_then_raises : Docker :=
  container [prints 10%N 0 ("1" +:+ Py.nl); prints 1000000%N 0 EmptyString] None.

(** Every run prints an empty line. *)
Definition prints_newline : Docker :=
  container [prints 10%N 0 Py.nl; prints 10%N 0 Py.nl] None.

(** [make build] does not end within the build budget. *)
Definition slow_build : Docker :=
  container [prints 1000000%N 0 EmptyString] (Some (mkExecResult 137 EmptyString)).

(** [make run] finds no rule for the target. *)
Definition no_rule : Docker :=
  container [prints 10%N 2 "make: *** No rule to make target 'run'.  Stop."] None.

(** Both vectors pass. *)
Definition all_pass : Docker :=
  container [prints 10%N 0 ("1" +:+ Py.nl); writes 10%N "2"] None.

(** The container is found exited after the second run command, which
    itself reports exit code 1. *)
Definition dies_on_second : Docker :=
  container [prints 10%N 0 ("1" +:+ Py.nl);
             mkReply 10%N (Some (mkExecResult 1 "Killed")) "exited" ∅] None.

(** [make build] fails at once with exit code 2. *)
Definition broken_build : Docker :=
  container [prints 10%N 2 "main.c:1: error"] None.

(** The engine raises from the first [exec_run]. *)
Definition raises_at_once : Docker := container [] None.

(** Bytes that are not UTF-8. *)
Definition garbled : string := String (ascii_of_nat 255) (String (ascii_of_nat 254) "").

(** [make build] fails at once and prints bytes that are not UTF-8. *)
Definition garbled_build : Docker := container [prints 10%N 2 garbled] None.

(** The run command exits with code 0, leaves the right artifact and prints
    bytes that are not UTF-8. *)
Definition garbled_run : Docker :=
  container [mkReply 10%N (Some (mkExecResult 0 garbled)) "running"
               {[ output_file_path := "1" ]}] None.

End Scenario.

(** * Facts *)

(** ** Python strings *)

Example find_examples :
  Py.find "all: run" "run:" = -1 /\ Py.find "prerun:" "run:" = 3 /\
  Py.find "run:" "run:" = 0 /\ Py.find "" "run:" = -1.
Proof. repeat split; reflexivity. Qed.

Example canonicalize_examples :
  canonicalize ("3" +:+ Py.nl) "3" = Some "3" /\
  canonicalize ("3" +:+ Py.nl) ("3" +:+ Py.nl) = Some ("3" +:+ Py.nl) /\
  canonicalize "3" "4" = Some "3" /\
  canonicalize "" "" = Some "" /\
  canonicalize Py.nl "" = None.
Proof. repeat split; reflexivity. Qed.

Lemma append_cons (c : ascii) (s t : string) :
  String c s +:+ t = String c (s +:+ t).
Proof. reflexivity. Qed.

Lemma append_nil (t : string) : "" +:+ t = t.
Proof. reflexivity. Qed.

Lemma startswith_spec (sub s : string) :
  Py.startswith sub s = true <-> exists post, s = sub +:+ post.
Proof.
  revert s. induction sub as [|a sub IH]; intros s; simpl.
  - split; [intros _; by exists s | done].
  - destruct s as [|b s].
    + split; [done | intros [post H]; discriminate].
    + destruct (Ascii.eqb_spec a b) as [->|Hne].
      * rewrite IH. split; intros [post H]; exists post.
        -- by rewrite H.
        -- rewrite append_cons in H. congruence.
      * split; [done | intros [post H]].
        rewrite append_cons in H. congruence.
Qed.

Lemma find_from_contains (s sub : string) (i : Z) :
  0 <= i -> Py.find_from i s sub <> -1 <-> Py.contains s sub.
Proof.
  revert i. induction s as [|c s IH]; intros i Hi; simpl.
  - destruct (Py.startswith sub "") eqn:E.
    + split; [intros _ | lia].
      apply startswith_spec in E as [post E]. by exists "", post.
    + split; [done | intros [pre [post H]]].
      destruct pre; [| discriminate]. rewrite append_nil in H.
      assert (Py.startswith sub "" = true) by (apply startswith_spec; eauto).
      congruence.
  - destruct (Py.startswith sub (String c s)) eqn:E.
    + split; [intros _ | lia].
      apply startswith_spec in E as [post E]. by exists "", post.
    + rewrite IH by lia. split; intros [pre [post H]].
      * exists (String c pre), post. by rewrite append_cons, H.
      * destruct pre as [|c' pre].
        -- rewrite append_nil in H.
           assert (Py.startswith sub (String c s) = true)
             by (apply startswith_spec; eauto).
           congruence.
        -- rewrite append_cons in H. exists pre, post. congruence.
Qed.

Lemma find_contains (s sub : string) : Py.find s sub <> -1 <-> Py.contains s sub.
Proof. by apply find_from_contains. Qed.


(** ** The test runner *)

Lemma interp_bind {A B : Type} (d : Docker) (dl : option N) (p : Prog A)
    (f : A -> Prog B) (w : World) :
  interp d dl (bind p f) w =
  match interp d dl p w with
  | (Finished (Some a), w') => interp d dl (f a) w'
  | (Finished None, w') => (Finished None, w')
  | (Blocked k, w') => (Blocked (fun er => bind (k er) f), w')
  end.
Proof.
  revert w. induction p as [a|e|path content k IH|c wd env k IH|k IH|path k IH];
    intros w; simpl; try done.
  destruct (overruns _ _); [done |].
  destruct (returns _); [apply IH | done].
Qed.

Lemma decode_Some (b text : string) : Py.decode b = Some text -> text = b.
Proof. unfold Py.decode. destruct (Py.utf8_valid b); congruence. Qed.

Lemma run_vector_answer (d : Docker) (path : string) (result : CheckResult)
    (n : nat) (test : TestVector) (w : World) (a : string) :
  yields d (exec_calls w) a ->
  interp d None (run_vector path result n test) w =
  match canonicalize a (snd test) with
  | None => (Finished None, after_fetch d path test w)
  | Some answer =>
      if negb (bool_decide (answer = snd test)) then
        (Finished (Some (Some (set_tests_passed n
           (set_check_message (mismatch_message test answer)
              (set_check_result STATUS_CHECK_ERROR result))))),
         after_fetch d path test w)
      else (Finished (Some None), after_fetch d path test w)
  end.
Proof.
  intros (er & stdout & Hret & Hst & Hdec & Hex & ->).
  unfold run_vector. cbn [interp overruns]. cbn [exec_calls create_file log].
  rewrite Hret. cbn [interp]. cbn [container_status log answered].
  rewrite bool_decide_eq_false_2 by done.
  rewrite Hdec, Hex. cbn [Z.eqb negb interp]. unfold get_file_from_container.
  cbn [container_files log answered].
  unfold after_fetch, after_exec. cbn [exec_calls create_file log].
  destruct (files_after _ !! output_file_path) as [f|]; cbn [default];
    (destruct (canonicalize _ _) as [answer|]; [|done]);
    by destruct (negb _).
Qed.

(** Output that does not decode ends the thread at line 120, before the
    exit code is looked at and before the artifact is fetched. *)
Lemma run_vector_undecodable (d : Docker) (path : string)
    (result : CheckResult) (n : nat) (test : TestVector) (w : World)
    (er : ExecResult) :
  returns (reply d (exec_calls w)) = Some er ->
  status_after (reply d (exec_calls w)) <> "exited" ->
  Py.decode (output er) = None ->
  interp d None (run_vector path result n test) w
  = (Finished None, after_exec d path test w).
Proof.
  intros Hret Hst Hdec.
  unfold run_vector. cbn [interp overruns]. cbn [exec_calls create_file log].
  rewrite Hret. cbn [interp]. cbn [container_status log answered].
  rewrite bool_decide_eq_false_2 by done.
  by rewrite Hdec.
Qed.

(** A run that [produces] an answer either [yields] it or its output does
    not decode. *)
Lemma produces_yields_or_garbled (d : Docker) (i : nat) (a : string) :
  produces d i a ->
  yields d i a \/
  exists er : ExecResult,
    returns (reply d i) = Some er /\ status_after (reply d i) <> "exited" /\
    Py.decode (output er) = None.
Proof.
  intros (er & Hret & Hst & Hex & ->).
  destruct (Py.decode (output er)) as [stdout|] eqn:Hdec.
  - left. exists er, stdout. apply decode_Some in Hdec as Heq. by subst stdout.
  - right. by exists er.
Qed.

Lemma exec_calls_after_fetch d path t w :
  exec_calls (after_fetch d path t w) = S (exec_calls w).
Proof. reflexivity. Qed.

Lemma exec_calls_after_passes d path passed w :
  exec_calls (after_passes d path passed w) = (exec_calls w + length passed)%nat.
Proof.
  revert w. induction passed as [|t ts IH]; intros w; simpl.
  - lia.
  - rewrite IH, exec_calls_after_fetch. lia.
Qed.

Lemma run_loop_passes d path result passed rest n w :
  (forall j t, passed !! j = Some t -> vector_passes d (exec_calls w + j) t) ->
  interp d None (run_loop path result n (passed ++ rest)) w =
  interp d None (run_loop path result (n + length passed) rest)
    (after_passes d path passed w).
Proof.
  revert n w. induction passed as [|t ts IH]; intros n w Hpass.
  - simpl. by rewrite Nat.add_0_r.
  - destruct (Hpass 0%nat t eq_refl) as (a & Ha & Hc).
    rewrite Nat.add_0_r in Ha.
    change ((t :: ts) ++ rest) with (t :: (ts ++ rest)).
    cbn [run_loop]. rewrite interp_bind.
    rewrite (run_vector_answer _ _ _ _ _ _ a Ha), Hc.
    rewrite bool_decide_eq_true_2 by done. cbn [negb].
    rewrite IH.
    + cbn [after_passes length]. by rewrite Nat.add_succ_r.
    + intros j t' Hj. rewrite exec_calls_after_fetch.
      replace (S (exec_calls w) + j)%nat with (exec_calls w + S j)%nat by lia.
      by apply Hpass.
Qed.

(** With the earlier vectors only known to [passes], the loop gets to the
    rest of the vectors or the thread has ended without a result. *)
Lemma run_loop_passes_or_raises d path result passed rest n w :
  (forall j t, passed !! j = Some t -> passes d (exec_calls w + j) t) ->
  interp d None (run_loop path result n (passed ++ rest)) w
  = interp d None (run_loop path result (n + length passed) rest)
      (after_passes d path passed w) \/
  exists w' : World,
    interp d None (run_loop path result n (passed ++ rest)) w
    = (Finished None, w').
Proof.
  revert n w. induction passed as [|t ts IH]; intros n w Hpass.
  - left. simpl. by rewrite Nat.add_0_r.
  - destruct (Hpass 0%nat t eq_refl) as (a & Ha & Hc).
    rewrite Nat.add_0_r in Ha.
    change ((t :: ts) ++ rest) with (t :: (ts ++ rest)).
    cbn [run_loop]. rewrite interp_bind.
    destruct (produces_yields_or_garbled _ _ _ Ha) as [Hy|(er & Hret & Hst & Hdec)].
    + rewrite (run_vector_answer _ _ _ _ _ _ a Hy), Hc.
      rewrite bool_decide_eq_true_2 by done. cbn [negb].
      destruct (IH (S n) (after_fetch d path t w)) as [Hgo|Hend].
      * intros j t' Hj. rewrite exec_calls_after_fetch.
        replace (S (exec_calls w) + j)%nat with (exec_calls w + S j)%nat by lia.
        by apply Hpass.
      * left. rewrite Hgo. cbn [after_passes length]. by rewrite Nat.add_succ_r.
      * by right.
    + right. rewrite (run_vector_undecodable _ _ _ _ _ _ er Hret Hst Hdec).
      by eexists.
Qed.


(** Cutting the sequence at its [k]-th vector (1-indexed). *)
Lemma split_at_vector (tests : list TestVector) (k : nat) (test : TestVector) :
  (1 <= k)%nat ->
  tests !! (k - 1)%nat = Some test ->
  tests = take (k - 1) tests ++ test :: drop k tests /\
  take k tests = take (k - 1) tests ++ [test] /\
  length (take (k - 1) tests) = (k - 1)%nat.
Proof.
  intros Hk Hlook. pose proof (lookup_lt_Some _ _ _ Hlook) as Hlt.
  repeat split.
  - replace k with (S (k - 1)) at 2 by lia. by rewrite take_drop_middle.
  - replace k with (S (k - 1)) at 1 by lia. by apply take_S_r.
  - rewrite length_take. lia.
Qed.

Lemma passes_before (d : Docker) (tests : list TestVector) (k : nat) (w : World) :
  (forall j t, (j < k - 1)%nat -> tests !! j = Some t ->
               passes d (exec_calls w + j) t) ->
  forall j t, take (k - 1) tests !! j = Some t -> passes d (exec_calls w + j) t.
Proof.
  intros Hpass j t Hj. pose proof (lookup_lt_Some _ _ _ Hj) as Hjlt.
  rewrite length_take in Hjlt. rewrite lookup_take_lt in Hj by lia.
  apply Hpass; [lia | done].
Qed.

Lemma vector_passes_before (d : Docker) (tests : list TestVector) (k : nat)
    (w : World) :
  (forall j t, (j < k - 1)%nat -> tests !! j = Some t ->
               vector_passes d (exec_calls w + j) t) ->
  forall j t, take (k - 1) tests !! j = Some t ->
              vector_passes d (exec_calls w + j) t.
Proof.
  intros Hpass j t Hj. pose proof (lookup_lt_Some _ _ _ Hj) as Hjlt.
  rewrite length_take in Hjlt. rewrite lookup_take_lt in Hj by lia.
  apply Hpass; [lia | done].
Qed.

(** Up to its [k]-th vector, a run whose earlier vectors pass is the loop
    resumed at that vector with [k - 1] tests counted. *)
Lemma run_until_vector (d : Docker) (path : string) (tests : list TestVector)
    (k : nat) (test : TestVector) (w : World) :
  (1 <= k)%nat ->
  tests !! (k - 1)%nat = Some test ->
  (forall j t, (j < k - 1)%nat -> tests !! j = Some t ->
               vector_passes d (exec_calls w + j) t) ->
  interp d None (DockerTestThread_run path tests) w
  = interp d None
      (run_loop path (set_tests_total (length tests) CheckResult0) (k - 1)
         (test :: drop k tests))
      (after_passes d path (take (k - 1) tests) w).
Proof.
  intros Hk Hlook Hpass.
  destruct (split_at_vector tests k test Hk Hlook) as (Hsplit & Htake & Hlen).
  unfold DockerTestThread_run. cbv zeta.
  set (result := set_tests_total (length tests) CheckResult0).
  rewrite Hsplit at 1.
  rewrite run_loop_passes by (by apply vector_passes_before).
  by rewrite Hlen.
Qed.



Example mismatch_message_example :
  mismatch_message ("5", "6") "5"
  = "For " +:+ Py.dq +:+ "5" +:+ Py.dq +:+ " expected " +:+ Py.dq +:+ "6"
    +:+ Py.dq +:+ ", but got " +:+ Py.dq +:+ "5" +:+ Py.dq.
Proof. reflexivity. Qed.

(** ** Canonicalization *)

Lemma len_pos (s : string) : s <> "" -> (0 <? Py.len s) = true.
Proof.
  intros Hs. destruct s as [|c s]; [done |].
  apply Z.ltb_lt. unfold Py.len. simpl String.length. lia.
Qed.

Lemma last_char_nl (s : string) : Py.last_char (s +:+ Py.nl) = Some Py.NL.
Proof.
  induction s as [|c s IH]; [done |].
  rewrite append_cons. simpl. rewrite IH.
  by destruct (s +:+ Py.nl) eqn:E; [destruct s |].
Qed.

Lemma drop_last_nl (s : string) : Py.drop_last (s +:+ Py.nl) = s.
Proof.
  induction s as [|c s IH]; [done |].
  rewrite append_cons. simpl. rewrite IH.
  by destruct (s +:+ Py.nl) eqn:E; [destruct s |].
Qed.

Lemma last_char_None (s : string) : Py.last_char s = None -> s = "".
Proof.
  induction s as [|c s IH]; [done |].
  simpl. destruct s; [done |]. intros H. by specialize (IH H).
Qed.

Lemma append_nl_nonempty (s : string) : s +:+ Py.nl <> "".
Proof. by destruct s. Qed.

(** The newline-stripping law, for a non-empty expected output: one trailing
    terminator of the answer is dropped when the expected output has none. *)
Lemma canonicalize_strips_one (body expected : string) :
  expected <> "" ->
  Py.last_char expected <> Some Py.NL ->
  canonicalize (body +:+ Py.nl) expected = Some body.
Proof.
  intros Hne Hlast. unfold canonicalize.
  rewrite len_pos by apply append_nl_nonempty.
  rewrite last_char_nl, bool_decide_eq_true_2 by done. cbn [andb].
  destruct (Py.last_char expected) as [c|] eqn:E.
  - rewrite bool_decide_eq_false_2 by congruence. cbn [negb].
    by rewrite drop_last_nl.
  - by apply last_char_None in E.
Qed.

(** In every other case that does not raise, the answer is compared as it
    is. *)
Lemma canonicalize_exact (answer expected : string) :
  Py.last_char answer <> Some Py.NL \/ Py.last_char expected = Some Py.NL ->
  canonicalize answer expected = Some answer.
Proof.
  intros H. unfold canonicalize.
  destruct (0 <? Py.len answer); [| done]. cbn [andb].
  destruct (bool_decide_reflect (Py.last_char answer = Some Py.NL)) as [Ha|Ha];
    [| done].
  destruct H as [H|H]; [done |].
  rewrite H. by rewrite bool_decide_eq_true_2.
Qed.

(** An empty expected output makes the comparison raise as soon as the
    answer ends in a line terminator. *)
Lemma canonicalize_empty_expected (answer : string) :
  answer <> "" ->
  Py.last_char answer = Some Py.NL ->
  canonicalize answer "" = None.
Proof.
  intros Hne Hlast. unfold canonicalize.
  by rewrite len_pos, Hlast, bool_decide_eq_true_2.
Qed.

(** A run that gets to a vector whose comparison raises ends without a
    result; so does a run that ends earlier on output that does not
    decode. *)
Lemma run_reaches_vector (d : Docker) (path : string) (tests : list TestVector)
    (k : nat) (test : TestVector) (a : string) (w : World) :
  (1 <= k)%nat ->
  tests !! (k - 1)%nat = Some test ->
  (forall j t, (j < k - 1)%nat -> tests !! j = Some t ->
               passes d (exec_calls w + j) t) ->
  produces d (exec_calls w + (k - 1)) a ->
  canonicalize a (snd test) = None ->
  exists w' : World,
    interp d None (DockerTestThread_run path tests) w = (Finished None, w').
Proof.
  intros Hk Hlook Hpass Ha Hc.
  destruct (split_at_vector tests k test Hk Hlook) as (Hsplit & Htake & Hlen).
  unfold DockerTestThread_run. cbv zeta.
  set (result := set_tests_total (length tests) CheckResult0).
  pose proof (run_loop_passes_or_raises d path result (take (k - 1) tests)
                (test :: drop k tests) 0 w (passes_before d tests k w Hpass))
    as Hloop.
  rewrite <- Hsplit in Hloop. destruct Hloop as [Hgo|Hend]; [| done].
  rewrite Hgo. cbn [run_loop]. rewrite interp_bind.
  assert (Ha' : produces d
            (exec_calls (after_passes d path (take (k - 1) tests) w)) a)
    by (by rewrite exec_calls_after_passes, Hlen).
  destruct (produces_yields_or_garbled _ _ _ Ha') as [Hy|(er & Hret & Hst & Hdec)].
  - rewrite (run_vector_answer _ _ _ _ _ _ a Hy), Hc. by eexists.
  - rewrite (run_vector_undecodable _ _ _ _ _ _ er Hret Hst Hdec). by eexists.
Qed.

(** C9. When the vector that is reached has an empty expected output and its
    answer is non-empty and ends in a line terminator, the canonicalization
    step evaluates [expected[-1]] on the empty string: the comparison raises
    and [DockerTestThread.run] ends without a result, whatever the container
    did before. *)
Theorem empty_expected_raises (d : Docker) (stdin_file_path : string)
    (tests : list TestVector) (k : nat) (test : TestVector) (a : string)
    (w : World) :
  (1 <= k)%nat ->
  tests !! (k - 1)%nat = Some test ->
  (forall j t, (j < k - 1)%nat -> tests !! j = Some t ->
               passes d (exec_calls w + j) t) ->
  produces d (exec_calls w + (k - 1)) a ->
  snd test = "" ->
  a <> "" ->
  Py.last_char a = Some Py.NL ->
  Py.last_char (snd test) = None /\
  canonicalize a (snd test) = None /\
  exists w' : World,
    interp d None (DockerTestThread_run stdin_file_path tests) w
    = (Finished None, w').
Proof.
  intros Hk Hlook Hpass Ha Hexp Hne Hlast.
  assert (Hc : canonicalize a (snd test) = None).
  { rewrite Hexp. by apply canonicalize_empty_expected. }
  split; [by rewrite Hexp |]. split; [done |].
  by eapply run_reaches_vector.
Qed.

Lemma empty_expected_raises_witness :
  Py.last_char (snd ("7", "")) = None /\
  canonicalize Py.nl (snd ("7", "")) = None /\
  exists w' : World,
    interp Scenario.prints_newline None
      (DockerTestThread_run Scenario.stdin_file_path [("7", "")]) Scenario.world0
    = (Finished None, w').
Proof.
  apply (empty_expected_raises Scenario.prints_newline Scenario.stdin_file_path
           [("7", "")] 1 ("7", "") Py.nl Scenario.world0).
  - lia.
  - reflexivity.
  - intros j t Hj. simpl in Hj. lia.
  - exists (mkExecResult 0 Py.nl). repeat split. discriminate.
  - reflexivity.
  - discriminate.
  - reflexivity.
Defined.

(** ** Runs that exit with a non-zero code *)

Lemma run_vector_runtime_error (d : Docker) (path : string)
    (result : CheckResult) (n : nat) (test : TestVector) (w : World)
    (er : ExecResult) (stdout : string) :
  returns (reply d (exec_calls w)) = Some er ->
  status_after (reply d (exec_calls w)) <> "exited" ->
  Py.decode (output er) = Some stdout ->
  exit_code er <> 0 ->
  interp d None (run_vector path result n test) w =
  (Finished (Some (Some (set_check_message stdout
                           (set_check_result STATUS_RUNTIME_ERROR result)))),
   after_exec d path test w).
Proof.
  intros Hret Hst Hdec Hex.
  unfold run_vector. cbn [interp overruns]. cbn [exec_calls create_file log].
  rewrite Hret. cbn [interp]. cbn [container_status log answered].
  rewrite bool_decide_eq_false_2 by done. rewrite Hdec.
  apply Z.eqb_neq in Hex. by rewrite Hex.
Qed.

(** Whatever came before, a run command that exits with a non-zero code at
    the [k]-th vector leaves [tests_passed] at its initial value [0]: lines
    121-125 set the verdict and the message only. *)
Lemma runtime_error_reports_no_progress (d : Docker) (path : string)
    (tests : list TestVector) (k : nat) (test : TestVector) (er : ExecResult)
    (stdout : string) (w : World) :
  (1 <= k)%nat ->
  tests !! (k - 1)%nat = Some test ->
  (forall j t, (j < k - 1)%nat -> tests !! j = Some t ->
               vector_passes d (exec_calls w + j) t) ->
  returns (reply d (exec_calls w + (k - 1))) = Some er ->
  status_after (reply d (exec_calls w + (k - 1))) <> "exited" ->
  Py.decode (output er) = Some stdout ->
  exit_code er <> 0 ->
  exists (r : CheckResult) (w' : World),
    interp d None (DockerTestThread_run path tests) w = (Finished (Some r), w') /\
    check_result r = STATUS_RUNTIME_ERROR /\
    check_message r = stdout /\
    tests_passed r = 0%nat.
Proof.
  intros Hk Hlook Hpass Hret Hst Hdec Hex.
  destruct (split_at_vector tests k test Hk Hlook) as (Hsplit & Htake & Hlen).
  rewrite (run_until_vector d _ tests k test w Hk Hlook Hpass).
  cbn [run_loop]. rewrite interp_bind.
  erewrite run_vector_runtime_error;
    [| try rewrite exec_calls_after_passes, Hlen; eassumption ..].
  cbn [interp]. by eexists _, _.
Qed.

(** C2, at a session of two vectors whose first passes and whose second run
    exits with code 1: the verdict is [RUNTIME_ERROR] and the result carries
    [tests_passed = 0], not the one vector that passed. *)
Theorem runtime_error_forgets_passed_tests :
  passes Scenario.crash_on_second 0 ("1", "1") /\
  exists (r : CheckResult) (w' : World),
    Scenario.session Scenario.crash_on_second Scenario.run_only
      Scenario.two_vectors = (Returned r, w') /\
    check_result r = STATUS_RUNTIME_ERROR /\
    check_message r = "Traceback" /\
    tests_total r = 2%nat /\
    tests_passed r = 0%nat.
Proof.
  split.
  - exists ("1" +:+ Py.nl). split; [| reflexivity].
    exists (mkExecResult 0 ("1" +:+ Py.nl)). repeat split. discriminate.
  - eexists _, _. split; [vm_compute; reflexivity |]. by repeat split.
Qed.

(** C3, at a vector whose expected output is empty and whose answer is a
    single line terminator: the answer minus its terminator equals the
    expected output, yet the comparison raises; the worker leaves no result
    and the session is reported as [RUNTIME_TIMEOUT] with nothing passed. *)
Theorem empty_line_against_empty_expected :
  Py.drop_last Py.nl = "" /\
  canonicalize Py.nl "" = None /\
  interp Scenario.prints_newline None
    (DockerTestThread_run Scenario.stdin_file_path [("7", "")]) Scenario.world0
  = (Finished None,
     after_fetch Scenario.prints_newline Scenario.stdin_file_path ("7", "")
       Scenario.world0) /\
  exists (r : CheckResult) (w' : World),
    Scenario.session Scenario.prints_newline Scenario.run_only [("7", "")]
      = (Returned r, w') /\
    check_result r = STATUS_RUNTIME_TIMEOUT /\
    tests_passed r = 0%nat.
Proof.
  repeat split.
  eexists _, _. split; [vm_compute; reflexivity |]. by repeat split.
Qed.

(** ** The input file *)

Lemma input_file_is_not_stdin :
  let w' := snd (interp Scenario.all_pass None
                   (run_vector Scenario.stdin_file_path CheckResult0 0 ("3", "3"))
                   Scenario.world0) in
  host_files w' !! Scenario.stdin_file_path = Some ("3" +:+ Py.nl) /\
  host_files w' !! Scenario.stdin_file_path <> Some (fst ("3", "3")).
Proof. split; [vm_compute; reflexivity | vm_compute; discriminate]. Qed.

(** C5, amended. For every test vector, the turn of the loop first writes
    the vector's stdin followed by one line terminator to the input file,
    whatever the file held before; that is the file's content during and
    after the turn, whether the run command ends, raises or is still going
    when the budget expires. *)
Theorem input_file_holds_stdin_and_newline (d : Docker) (deadline : option N)
    (stdin_file_path : string) (result : CheckResult) (n : nat)
    (test : TestVector) (w : World) :
  let w' := snd (interp d deadline (run_vector stdin_file_path result n test) w) in
  host_files w' !! stdin_file_path = Some (fst test +:+ Py.nl) /\
  exists evs : list Event,
    trace w' = trace w ++ EvCreateFile stdin_file_path (fst test +:+ Py.nl) :: evs.
Proof.
  unfold run_vector. cbn [interp].
  repeat match goal with
         | |- context [match ?x with _ => _ end] => destruct x; cbn [interp]
         end;
    cbn [snd host_files trace log create_file answered pending_at];
    (split; [apply lookup_insert_eq | rewrite <- ?app_assoc; eexists; reflexivity]).
Qed.

(** ** The session *)

Section SessionFacts.

Variable BUILD_TIMEOUT : N.
Variable RUNTIME_TIMEOUT : N.
Variable files_to_tar : gmap string string -> string -> option string.
Variable Finding : Type.
Variable lint_dict : gmap string string -> list Finding.
Variable lint_errors_to_str : list Finding -> string.
Variable cwd : string.
Variable solution_dir : string.
Variable d : Docker.

Local Abbreviation session :=
  (check_task_multiple_files BUILD_TIMEOUT RUNTIME_TIMEOUT files_to_tar Finding
     lint_dict lint_errors_to_str cwd solution_dir d).
Local Abbreviation grade :=
  (provision_and_grade BUILD_TIMEOUT RUNTIME_TIMEOUT files_to_tar Finding
     lint_dict lint_errors_to_str cwd solution_dir d).
Local Abbreviation solution_path := (cwd +:+ "/solutions/" +:+ solution_dir).
Local Abbreviation stdin_file_path :=
  ((solution_path +:+ "/input") +:+ "/input.txt").

Lemma lacks_run_spec (makefile : string) :
  lacks_run makefile = false <-> Py.contains makefile "run:".
Proof.
  unfold lacks_run. rewrite <- find_contains.
  destruct (Z.eqb_spec (Py.find makefile "run:") (-1)); split; congruence.
Qed.

Lemma need_to_build_spec (makefile : string) :
  need_to_build_of makefile = true <-> Py.contains makefile "build:".
Proof.
  unfold need_to_build_of. rewrite <- find_contains.
  destruct (Z.eqb_spec (Py.find makefile "build:") (-1)); split; simpl;
    congruence.
Qed.

(** C10. The recipe is validated by searching its text: a submission with a
    Makefile goes on to provisioning exactly when the text holds [run:]
    somewhere (otherwise the session ends with the "must contain" result and
    nothing called), and the build flag it goes on with is set exactly when
    the text holds [build:] somewhere. *)
Theorem recipe_validation_is_text_search (source_code : gmap string string)
    (makefile : string) (tests : list TestVector) (w : World) :
  source_code !! "Makefile" = Some makefile ->
  (lacks_run makefile = false <-> Py.contains makefile "run:") /\
  (need_to_build_of makefile = true <-> Py.contains makefile "build:") /\
  (Py.contains makefile "run:" ->
   session source_code tests w
   = grade source_code tests (need_to_build_of makefile) w) /\
  (~ Py.contains makefile "run:" ->
   session source_code tests w = (Returned no_run_result, w)).
Proof.
  intros Hmk. split; [apply lacks_run_spec |].
  split; [apply need_to_build_spec |].
  unfold check_task_multiple_files. rewrite Hmk.
  split; intros Hrun.
  - apply lacks_run_spec in Hrun. by rewrite Hrun.
  - rewrite <- lacks_run_spec in Hrun.
    by destruct (lacks_run makefile).
Qed.

(** C7, amended. A submission with no Makefile, or whose Makefile text does
    not hold [run:] anywhere, gets verdict [BUILD_ERROR] with a message that
    says which of the two it is; the world is left as it was: no container is
    created and no collaborator is called. *)
Theorem no_run_text_is_build_error (source_code : gmap string string)
    (tests : list TestVector) (w : World) :
  (forall makefile, source_code !! "Makefile" = Some makefile ->
                    ~ Py.contains makefile "run:") ->
  exists r : CheckResult,
    session source_code tests w = (Returned r, w) /\
    check_result r = STATUS_BUILD_ERROR /\
    check_message r
    = match source_code !! "Makefile" with
      | None => "No Makefile found!"
      | Some _ => "Makefile must contain " +:+ Py.dq +:+ "run:" +:+ Py.dq
      end /\
    tests_passed r = 0%nat.
Proof.
  intros Hno. unfold check_task_multiple_files.
  destruct (source_code !! "Makefile") as [makefile|] eqn:Hmk.
  - specialize (Hno makefile eq_refl). rewrite <- lacks_run_spec in Hno.
    destruct (lacks_run makefile); [| done]. by eexists.
  - by eexists.
Qed.

(** C6. In a session that needs a build (the recipe holds [run:] and
    [build:], packaging and injection work), if [make build] is still running
    when the build budget ends, the verdict is [BUILD_TIMEOUT], the container
    has been killed, and between the kill and the teardown nothing is run: no
    input file is written and no run command is executed. *)
Theorem build_timeout_skips_tests (source_code : gmap string string)
    (makefile tar_source : string) (tests : list TestVector) (w : World) :
  source_code !! "Makefile" = Some makefile ->
  Py.contains makefile "run:" ->
  Py.contains makefile "build:" ->
  files_to_tar source_code "source/" = Some tar_source ->
  put_archive_ok d = true ->
  (BUILD_TIMEOUT < duration (reply d 0))%N ->
  exists (r : CheckResult) (w' : World),
    session source_code tests w = (Returned r, w') /\
    check_result r = STATUS_BUILD_TIMEOUT /\
    build_time r = BUILD_TIMEOUT /\
    tests_passed r = 0%nat /\
    tests_total r = length tests /\
    container_status w' = "exited" /\
    host_files w' = host_files w /\
    trace w' = trace w ++
      [EvContainersRun "liokorcode_checker"; EvPutArchive;
       EvExecRun "make build" "/root/source" []; EvKill;
       EvRmtree solution_path; EvRemoveContainer].
Proof.
  intros Hmk Hrun Hbuild Htar Hput Hslow.
  unfold check_task_multiple_files. rewrite Hmk.
  apply lacks_run_spec in Hrun. apply need_to_build_spec in Hbuild.
  rewrite Hrun, Hbuild. unfold provision_and_grade. rewrite Htar, Hput.
  cbn [negb]. unfold check_solution, build_solution, start_join,
    DockerBuildThread_run.
  cbn [interp overruns]. cbn [now exec_calls log containers_run].
  assert (Hover : (now w + BUILD_TIMEOUT <? now w + duration (reply d 0))%N = true)
    by (apply N.ltb_lt; lia).
  rewrite Hover. cbn [result_of default]. unfold join.
  assert (Htime : (now w + BUILD_TIMEOUT - now w)%N = BUILD_TIMEOUT) by lia.
  destruct (reply_when_killed d) as [er|]; cbn [interp];
    unfold lint_phase; cbn [check_result set_tests_total set_check_result
                              set_build_time CheckResult0];
    (eexists _, _; split; [reflexivity |]);
    cbn; rewrite Htime, <- !app_assoc; by repeat split.
Qed.

(** *** The phases before the static analysis never call it *)

Lemma no_lint_refl (w : World) : no_lint_between w w.
Proof. exists []. by rewrite app_nil_r. Qed.

Lemma no_lint_trans (w1 w2 w3 : World) :
  no_lint_between w1 w2 -> no_lint_between w2 w3 -> no_lint_between w1 w3.
Proof.
  intros (e1 & H1 & F1) (e2 & H2 & F2). exists (e1 ++ e2).
  split; [by rewrite H2, H1, app_assoc | by apply Forall_app].
Qed.

Lemma no_lint_step (e : Event) (w w' : World) :
  e <> EvLint -> trace w' = trace w ++ [e] -> no_lint_between w w'.
Proof. intros He Ht. exists [e]. split; [done | by constructor]. Qed.

Ltac one_call := eapply no_lint_step; [| reflexivity]; discriminate.

Lemma interp_no_lint {R : Type} (dl : option N) (p : Prog R) (w : World) :
  no_lint_between w (snd (interp d dl p w)).
Proof.
  revert w. induction p as [a|e|path content k IH|c wd env k IH|k IH|path k IH];
    intros w; cbn [interp].
  - apply no_lint_refl.
  - apply no_lint_refl.
  - eapply no_lint_trans; [| apply IH]. one_call.
  - destruct (overruns _ _); [one_call |].
    destruct (returns _); [| one_call].
    eapply no_lint_trans; [| apply IH]. one_call.
  - eapply no_lint_trans; [| apply IH]. one_call.
  - eapply no_lint_trans; [| apply IH]. one_call.
Qed.

Lemma join_no_lint {R : Type} (o : Outcome R) (w : World) :
  no_lint_between w (snd (join d o w)).
Proof.
  destruct o as [r|k]; cbn [join]; [apply no_lint_refl |].
  destruct (reply_when_killed d) as [er|]; [| apply no_lint_refl].
  pose proof (interp_no_lint None (k er) w) as H.
  by destruct (interp d None (k er) w).
Qed.

Lemma kill_no_lint (w : World) : no_lint_between w (kill w).
Proof. one_call. Qed.

Lemma test_phase_no_lint (path : string) (tests : list TestVector)
    (build_time : N) (w : World) :
  no_lint_between w (snd (test_phase RUNTIME_TIMEOUT d path tests build_time w)).
Proof.
  unfold test_phase, test_solution, start_join.
  pose proof (interp_no_lint
                (Some (now w + RUNTIME_TIMEOUT * N.of_nat (length tests))%N)
                (DockerTestThread_run path tests) w) as Hrun.
  destruct (interp d _ (DockerTestThread_run path tests) w) as [o w1].
  cbn [snd] in Hrun. destruct (result_of o); [done |].
  pose proof (join_no_lint o (DockerTestThread_terminate w1)) as Hjoin.
  destruct (join d o (DockerTestThread_terminate w1)) as [r w2].
  cbn [snd] in *. eapply no_lint_trans; [exact Hrun |].
  eapply no_lint_trans; [| exact Hjoin].
  eapply no_lint_trans; [| apply kill_no_lint]. one_call.
Qed.

Lemma check_solution_no_lint (path : string) (tests : list TestVector)
    (need_to_build : bool) (w : World) :
  no_lint_between w
    (snd (check_solution BUILD_TIMEOUT RUNTIME_TIMEOUT d path tests
            need_to_build w)).
Proof.
  assert (Htest : forall build_time0 w0,
    no_lint_between w0
      (snd (let '(result, w1) :=
              test_phase RUNTIME_TIMEOUT d path tests build_time0 w0 in
            (Returned result, w1)))).
  { intros build_time0 w0.
    pose proof (test_phase_no_lint path tests build_time0 w0) as H.
    by destruct (test_phase RUNTIME_TIMEOUT d path tests build_time0 w0). }
  unfold check_solution. destruct need_to_build; [| apply Htest].
  assert (Hbuild : no_lint_between w (snd (build_solution BUILD_TIMEOUT d w))).
  { unfold build_solution, start_join.
    pose proof (interp_no_lint (Some (now w + BUILD_TIMEOUT)%N)
                  (DockerBuildThread_run "/root/source") w) as Hrun.
    destruct (interp d _ (DockerBuildThread_run "/root/source") w) as [o w1].
    cbn [snd] in Hrun. destruct (result_of o); [done |].
    pose proof (join_no_lint o (DockerBuildThread_terminate w1)) as Hjoin.
    destruct (join d o (DockerBuildThread_terminate w1)) as [r w2].
    cbn [snd] in *. eapply no_lint_trans; [exact Hrun |].
    eapply no_lint_trans; [apply kill_no_lint | exact Hjoin]. }
  destruct (build_solution BUILD_TIMEOUT d w) as [[build_result build_time] w1].
  cbn [snd] in Hbuild. destruct build_result as [br|]; [| done].
  destruct (negb _); [by destruct (Py.decode _) |].
  eapply no_lint_trans; [exact Hbuild | apply Htest].
Qed.

(** C8. For every session that returns a record [r'], let [r] be the record
    as it stands before the lint step: the result of [check_solution], or
    the record of a refused recipe. Among the calls of the session there is
    one to the static analysis exactly when [r] has verdict [OK]. When it is
    called, [lint_success] says whether the rendered findings are the empty
    text (line 261), hence whether there were no findings whenever the
    renderer shows these findings as empty text only if there are none; if
    the rendered text is not empty the message is [r]'s message followed by
    a line terminator and that text. All other fields, the verdict among
    them, are [r]'s, and when the analysis is not called the record is
    [r]. *)
Theorem lint_only_after_ok (source_code : gmap string string)
    (tests : list TestVector) (w w' : World) (r' : CheckResult) :
  session source_code tests w = (Returned r', w') ->
  let findings := lint_dict source_code in
  let str_lint := lint_errors_to_str findings in
  exists (r : CheckResult) (evs : list Event),
    match source_code !! "Makefile" with
    | None => r = no_makefile_result
    | Some makefile =>
        if lacks_run makefile then r = no_run_result
        else
          exists w1 : World,
            check_solution BUILD_TIMEOUT RUNTIME_TIMEOUT d stdin_file_path tests
              (need_to_build_of makefile) (log EvPutArchive (containers_run w))
            = (Returned r, w1)
    end /\
    trace w' = trace w ++ evs /\
    (In EvLint evs <-> check_result r = STATUS_OK) /\
    (check_result r = STATUS_OK ->
     (lint_success r' = true <-> str_lint = "") /\
     ((str_lint = "" <-> findings = []) ->
      (lint_success r' = true <-> findings = [])) /\
     (str_lint = "" -> check_message r' = check_message r) /\
     (str_lint <> "" ->
      check_message r' = check_message r +:+ Py.nl +:+ str_lint)) /\
    (check_result r <> STATUS_OK -> r' = r) /\
    check_result r' = check_result r /\
    check_time r' = check_time r /\
    build_time r' = build_time r /\
    tests_passed r' = tests_passed r /\
    tests_total r' = tests_total r.
Proof.
  intros Hsession. cbv zeta.
  assert (Hrefused : forall r0 : CheckResult,
    check_result r0 = STATUS_BUILD_ERROR ->
    trace w = trace w ++ [] /\
    (In EvLint [] <-> check_result r0 = STATUS_OK) /\
    (check_result r0 = STATUS_OK ->
     (lint_success r0 = true <-> lint_errors_to_str (lint_dict source_code) = "") /\
     ((lint_errors_to_str (lint_dict source_code) = ""
       <-> lint_dict source_code = []) ->
      (lint_success r0 = true <-> lint_dict source_code = [])) /\
     (lint_errors_to_str (lint_dict source_code) = "" ->
      check_message r0 = check_message r0) /\
     (lint_errors_to_str (lint_dict source_code) <> "" ->
      check_message r0
      = check_message r0 +:+ Py.nl +:+ lint_errors_to_str (lint_dict source_code))) /\
    (check_result r0 <> STATUS_OK -> r0 = r0) /\
    check_result r0 = check_result r0 /\
    check_time r0 = check_time r0 /\
    build_time r0 = build_time r0 /\
    tests_passed r0 = tests_passed r0 /\
    tests_total r0 = tests_total r0).
  { intros r0 Hr0. split; [by rewrite app_nil_r |].
    split; [split; [done | rewrite Hr0; discriminate] |].
    split; [rewrite Hr0; discriminate |]. by repeat split. }
  unfold check_task_multiple_files in Hsession.
  destruct (source_code !! "Makefile") as [makefile|].
  2:{ injection Hsession as <- <-. exists no_makefile_result, [].
      split; [done | by apply Hrefused]. }
  destruct (lacks_run makefile).
  { injection Hsession as <- <-. exists no_run_result, [].
    split; [done | by apply Hrefused]. }
  unfold provision_and_grade in Hsession.
  destruct (files_to_tar _ _); [| done].
  destruct (negb _); [done |].
  pose proof (check_solution_no_lint stdin_file_path tests
                (need_to_build_of makefile)
                (log EvPutArchive (containers_run w))) as (evs0 & Htrace & Hnone).
  destruct (check_solution _ _ _ _ _ _ _) as [[r0|exn] w1]; [| done].
  cbn [fst snd] in *. cbn [trace log containers_run] in Htrace.
  set (findings := lint_dict source_code) in *.
  set (str_lint := lint_errors_to_str findings) in *.
  unfold lint_phase in Hsession. fold findings in Hsession.
  fold str_lint in Hsession.
  assert (Hlen : (Py.len str_lint =? 0) = true <-> str_lint = "").
  { unfold Py.len. destruct str_lint; simpl; split;
      (done || lia || intros H; apply Z.eqb_eq in H; lia). }
  assert (Hearlier : ~ In EvLint
            ([EvContainersRun "liokorcode_checker"; EvPutArchive] ++ evs0)).
  { rewrite in_app_iff. intros [[H|[H|[]]]|H]; [done | done |].
    rewrite Forall_forall in Hnone. apply list_elem_of_In in H.
    by apply (Hnone _ H). }
  destruct (Z.eqb_spec (check_result r0) STATUS_OK) as [Hok|Hok].
  - exists r0,
      (([EvContainersRun "liokorcode_checker"; EvPutArchive] ++ evs0)
       ++ [EvLint; EvRmtree solution_path; EvRemoveContainer]).
    split; [by exists w1 |].
    destruct (Py.len str_lint =? 0) eqn:Hempty;
      cbn [lint_success set_lint_success negb] in Hsession;
      injection Hsession as <- <-;
      (split; [cbn; rewrite Htrace; by rewrite <- !app_assoc |]);
      (split; [split; [done | intros _; rewrite in_app_iff; right; by left] |]);
      (split; [intros _ | split; [done | by repeat split]]);
      (split; [exact Hlen |]);
      (split; [intros Hfaithful; by rewrite <- Hfaithful |]).
    + split; [done | intros Hf]. exfalso. by apply Hf, Hlen.
    + split; [intros Hf | done]. apply Hlen in Hf. discriminate.
  - injection Hsession as <- <-.
    exists r0,
      (([EvContainersRun "liokorcode_checker"; EvPutArchive] ++ evs0)
       ++ [EvRmtree solution_path; EvRemoveContainer]).
    split; [by exists w1 |].
    split; [cbn; rewrite Htrace; by rewrite <- !app_assoc |].
    split.
    { split; [| done]. rewrite in_app_iff.
      intros [H|[H|[H|[]]]]; [by apply Hearlier in H | done | done]. }
    split; [done |]. by repeat split.
Qed.

(** ** A test phase that outlives its budget *)

Lemma blocked_run_vector (dl : option N) (path : string) (result : CheckResult)
    (n : nat) (test : TestVector) (w w' : World)
    (k : ExecResult -> Prog (option CheckResult)) :
  interp d dl (run_vector path result n test) w = (Blocked k, w') ->
  forall (er : ExecResult) (w2 : World),
    container_status w2 = "exited" ->
    interp d None (k er) w2
    = (Finished (Some (Some (set_tests_passed n
                               (set_check_result STATUS_CHECK_ERROR result)))),
       log EvContainersGet w2).
Proof.
  unfold run_vector. cbn [interp]. destruct (overruns _ _).
  - intros [= <- <-] er w2 Hst. cbn [interp]. by rewrite Hst.
  - destruct (returns _) as [er0|]; [| done]. cbn [interp].
    repeat match goal with
           | |- context [match ?x with _ => _ end] => destruct x; cbn [interp]
           end; done.
Qed.

Lemma blocked_run_loop (dl : option N) (path : string) (result : CheckResult)
    (tests : list TestVector) (n : nat) (w w' : World)
    (k : ExecResult -> Prog CheckResult) :
  interp d dl (run_loop path result n tests) w = (Blocked k, w') ->
  forall (er : ExecResult) (w2 : World),
    container_status w2 = "exited" ->
    exists m : nat,
      (n <= m)%nat /\
      interp d None (k er) w2
      = (Finished (Some (set_tests_passed m
                           (set_check_result STATUS_CHECK_ERROR result))),
         log EvContainersGet w2).
Proof.
  revert n w. induction tests as [|test rest IH]; intros n w; [done |].
  cbn [run_loop]. rewrite interp_bind.
  destruct (interp d dl (run_vector path result n test) w)
    as [[[[r|]|]|k0] w0] eqn:Hturn.
  - done.
  - intros Hrest er w2 Hst.
    destruct (IH _ _ Hrest er w2 Hst) as (m & Hm & Hk).
    exists m. split; [lia | done].
  - done.
  - intros [= <- <-] er w2 Hst. exists n. split; [lia |].
    rewrite interp_bind.
    by rewrite (blocked_run_vector _ _ _ _ _ _ _ _ Hturn er w2 Hst).
Qed.

(** When the test thread is still inside a run command at the end of the
    budget and that [exec_run] gives something back once the container is
    killed, the thread resumes at the status query, finds the container
    exited and leaves a [CHECK_ERROR] result; [test_solution] reads [result]
    again after the final [join] and hands that result on. *)
Lemma outlived_budget_with_reply (path : string) (tests : list TestVector)
    (er : ExecResult) (w : World) :
  still_running
    (fst (start_join d (RUNTIME_TIMEOUT * N.of_nat (length tests))%N
            (DockerTestThread_run path tests) w)) = true ->
  reply_when_killed d = Some er ->
  exists r : CheckResult,
    fst (test_phase RUNTIME_TIMEOUT d path tests 0%N w) = r /\
    check_result r = STATUS_CHECK_ERROR /\
    tests_total r = length tests.
Proof.
  intros Hblocked Hreply. unfold test_phase, test_solution.
  destruct (start_join _ _ _ _) as [[res|k] w1] eqn:Hstart; [done |].
  cbn [result_of join]. rewrite Hreply.
  unfold start_join, DockerTestThread_run in Hstart.
  destruct (blocked_run_loop _ _ _ _ _ _ _ _ Hstart er
              (DockerTestThread_terminate w1) eq_refl) as (m & _ & Hk).
  rewrite Hk. cbn [result_of fst]. by eexists.
Qed.

(** When that [exec_run] raises instead, the thread ends without a result
    and the phase is reported as [RUNTIME_TIMEOUT] with all counts at zero. *)
Lemma outlived_budget_with_raise (path : string) (tests : list TestVector)
    (w : World) :
  still_running
    (fst (start_join d (RUNTIME_TIMEOUT * N.of_nat (length tests))%N
            (DockerTestThread_run path tests) w)) = true ->
  reply_when_killed d = None ->
  exists r : CheckResult,
    fst (test_phase RUNTIME_TIMEOUT d path tests 0%N w) = r /\
    check_result r = STATUS_RUNTIME_TIMEOUT /\
    tests_passed r = 0%nat /\
    tests_total r = 0%nat.
Proof.
  intros Hblocked Hreply. unfold test_phase, test_solution.
  destruct (start_join _ _ _ _) as [[res|k] w1] eqn:Hstart; [done |].
  cbn [result_of join]. rewrite Hreply. cbn [fst]. by eexists.
Qed.

End SessionFacts.

(** ** The theorems at concrete sessions *)

(** C4, at a session of two vectors whose first passes and whose second run
    is still going when the budget of [2 * RUNTIME_TIMEOUT] ends: the test
    phase has not completed in time and the container is killed, yet the
    verdict is [CHECK_ERROR] with [tests_passed = 1], not [RUNTIME_TIMEOUT]
    with zero. *)
Theorem timeout_reported_as_check_error :
  still_running
    (fst (start_join Scenario.hangs_on_second
            (Scenario.RUNTIME_TIMEOUT * N.of_nat (length Scenario.two_vectors))%N
            (DockerTestThread_run Scenario.stdin_file_path Scenario.two_vectors)
            (log EvPutArchive (containers_run Scenario.world0)))) = true /\
  exists (r : CheckResult) (w' : World),
    Scenario.session Scenario.hangs_on_second Scenario.run_only
      Scenario.two_vectors = (Returned r, w') /\
    check_result r = STATUS_CHECK_ERROR /\
    tests_passed r = 1%nat /\
    tests_total r = 2%nat /\
    check_time r = (2 * Scenario.RUNTIME_TIMEOUT)%N /\
    In EvKill (trace w').
Proof.
  split; [vm_compute; reflexivity |].
  eexists _, _. split; [vm_compute; reflexivity |].
  repeat split. vm_compute. tauto.
Qed.

(** The same session against an engine that raises from the killed
    [exec_run]: only then is the verdict [RUNTIME_TIMEOUT]. *)
Example timeout_when_exec_raises :
  exists (r : CheckResult) (w' : World),
    Scenario.session Scenario.hangs_then_raises Scenario.run_only
      Scenario.two_vectors = (Returned r, w') /\
    check_result r = STATUS_RUNTIME_TIMEOUT /\
    tests_passed r = 0%nat /\
    tests_total r = 0%nat.
Proof. eexists _, _. split; [vm_compute; reflexivity |]. by repeat split. Qed.

Example all_pass_is_ok :
  exists (r : CheckResult) (w' : World),
    Scenario.session Scenario.all_pass Scenario.run_only Scenario.two_vectors
      = (Returned r, w') /\
    check_result r = STATUS_OK /\
    tests_passed r = 2%nat /\
    tests_total r = 2%nat /\
    lint_success r = true /\
    check_message r = "".
Proof. eexists _, _. split; [vm_compute; reflexivity |]. by repeat split. Qed.

Example recipe_examples :
  spec_declares_target ("build:" +:+ Py.nl +:+ "run: build") "run" = true /\
  spec_declares_target ("all run: main.py") "run" = true /\
  spec_declares_target ("# run: later" +:+ Py.nl +:+ "all:") "run" = false /\
  spec_declares_target ("prerun:" +:+ Py.nl +:+ String Py.TAB "true") "run" = false /\
  lacks_run ("# run: later" +:+ Py.nl +:+ "all:") = false /\
  lacks_run ("prerun:" +:+ Py.nl +:+ String Py.TAB "true") = false /\
  need_to_build_of ("rebuild:" +:+ Py.nl +:+ "run:") = true.
Proof. repeat split; reflexivity. Qed.

(** A recipe whose only rule is [prerun] declares no [run] target, but its
    text holds [run:]: the session creates a container, runs [make run] in it
    and reports the failure of that command as [RUNTIME_ERROR]. *)
Lemma prerun_recipe_is_provisioned :
  Scenario.prerun_only !! "Makefile"
    = Some ("prerun:" +:+ Py.nl +:+ String Py.TAB "true") /\
  spec_declares_target ("prerun:" +:+ Py.nl +:+ String Py.TAB "true") "run" = false /\
  exists (r : CheckResult) (w' : World),
    Scenario.session Scenario.no_rule Scenario.prerun_only Scenario.two_vectors
      = (Returned r, w') /\
    check_result r = STATUS_RUNTIME_ERROR /\
    check_result r <> STATUS_BUILD_ERROR /\
    In (EvContainersRun "liokorcode_checker") (trace w').
Proof.
  split; [vm_compute; reflexivity |]. split; [reflexivity |].
  eexists _, _. split; [vm_compute; reflexivity |].
  repeat split; [discriminate |]. vm_compute. tauto.
Qed.

Lemma no_run_text_is_build_error_witness :
  exists r : CheckResult,
    Scenario.session Scenario.all_pass {[ "Makefile" := "all: main.py" ]}
      Scenario.two_vectors = (Returned r, Scenario.world0) /\
    check_result r = STATUS_BUILD_ERROR /\
    check_message r
    = match ({[ "Makefile" := "all: main.py" ]} : gmap string string) !! "Makefile" with
      | None => "No Makefile found!"
      | Some _ => "Makefile must contain " +:+ Py.dq +:+ "run:" +:+ Py.dq
      end /\
    tests_passed r = 0%nat.
Proof.
  apply (no_run_text_is_build_error Scenario.BUILD_TIMEOUT
           Scenario.RUNTIME_TIMEOUT Scenario.files_to_tar string
           Scenario.lint_dict Scenario.lint_errors_to_str "/srv/checker"
           "b4c0ffee" Scenario.all_pass {[ "Makefile" := "all: main.py" ]}
           Scenario.two_vectors Scenario.world0).
  intros makefile Hmk Hc.
  assert (makefile = "all: main.py") as ->.
  { vm_compute in Hmk. congruence. }
  apply find_contains in Hc. by apply Hc.
Defined.

Lemma build_timeout_skips_tests_witness :
  exists (r : CheckResult) (w' : World),
    Scenario.session Scenario.slow_build Scenario.build_and_run
      Scenario.two_vectors = (Returned r, w') /\
    check_result r = STATUS_BUILD_TIMEOUT /\
    build_time r = Scenario.BUILD_TIMEOUT /\
    tests_passed r = 0%nat /\
    tests_total r = length Scenario.two_vectors /\
    container_status w' = "exited" /\
    host_files w' = host_files Scenario.world0 /\
    trace w' = trace Scenario.world0 ++
      [EvContainersRun "liokorcode_checker"; EvPutArchive;
       EvExecRun "make build" "/root/source" []; EvKill;
       EvRmtree ("/srv/checker" +:+ "/solutions/" +:+ "b4c0ffee");
       EvRemoveContainer].
Proof.
  apply (build_timeout_skips_tests Scenario.BUILD_TIMEOUT
           Scenario.RUNTIME_TIMEOUT Scenario.files_to_tar string
           Scenario.lint_dict Scenario.lint_errors_to_str "/srv/checker"
           "b4c0ffee" Scenario.slow_build Scenario.build_and_run
           ("build:" +:+ Py.nl +:+ String Py.TAB "gcc main.c" +:+ Py.nl
            +:+ "run:" +:+ Py.nl +:+ String Py.TAB "./a.out")
           "tar" Scenario.two_vectors Scenario.world0).
  - vm_compute. reflexivity.
  - apply find_contains. vm_compute. discriminate.
  - apply find_contains. vm_compute. discriminate.
  - reflexivity.
  - reflexivity.
  - vm_compute. reflexivity.
Defined.

Lemma recipe_validation_is_text_search_witness :
  (lacks_run ("prerun:" +:+ Py.nl +:+ String Py.TAB "true") = false
   <-> Py.contains ("prerun:" +:+ Py.nl +:+ String Py.TAB "true") "run:") /\
  (need_to_build_of ("prerun:" +:+ Py.nl +:+ String Py.TAB "true") = true
   <-> Py.contains ("prerun:" +:+ Py.nl +:+ String Py.TAB "true") "build:").
Proof.
  pose proof (recipe_validation_is_text_search Scenario.BUILD_TIMEOUT
                Scenario.RUNTIME_TIMEOUT Scenario.files_to_tar string
                Scenario.lint_dict Scenario.lint_errors_to_str "/srv/checker"
                "b4c0ffee" Scenario.no_rule Scenario.prerun_only
                ("prerun:" +:+ Py.nl +:+ String Py.TAB "true")
                Scenario.two_vectors Scenario.world0) as H.
  destruct H as (Hrun & Hbuild & _).
  - vm_compute. reflexivity.
  - exact (conj Hrun Hbuild).
Defined.

Lemma lint_only_after_ok_witness :
  exists (r' r : CheckResult) (evs : list Event),
    fst (Scenario.session Scenario.all_pass
           (<["lint" := "main.py:1: unused import"]> Scenario.run_only)
           Scenario.two_vectors) = Returned r' /\
    trace (snd (Scenario.session Scenario.all_pass
                  (<["lint" := "main.py:1: unused import"]> Scenario.run_only)
                  Scenario.two_vectors)) = trace Scenario.world0 ++ evs /\
    (In EvLint evs <-> check_result r = STATUS_OK) /\
    (check_result r = STATUS_OK ->
     check_message r'
     = check_message r +:+ Py.nl +:+ "main.py:1: unused import" +:+ Py.nl) /\
    check_result r' = check_result r /\
    tests_passed r' = tests_passed r.
Proof.
  assert (Hsession :
    Scenario.session Scenario.all_pass
      (<["lint" := "main.py:1: unused import"]> Scenario.run_only)
      Scenario.two_vectors
    = (Returned (mkCheckResult 20 0 STATUS_OK
                   (Py.nl +:+ "main.py:1: unused import" +:+ Py.nl) 2 2 false),
       snd (Scenario.session Scenario.all_pass
              (<["lint" := "main.py:1: unused import"]> Scenario.run_only)
              Scenario.two_vectors))) by (vm_compute; reflexivity).
  destruct (lint_only_after_ok Scenario.BUILD_TIMEOUT
              Scenario.RUNTIME_TIMEOUT Scenario.files_to_tar string
              Scenario.lint_dict Scenario.lint_errors_to_str "/srv/checker"
              "b4c0ffee" Scenario.all_pass
              (<["lint" := "main.py:1: unused import"]> Scenario.run_only)
              Scenario.two_vectors Scenario.world0 _ _ Hsession)
    as (r & evs & _ & Htrace & Hlint & Hok & _ & Hverdict & _ & _ & Hpassed & _).
  eexists _, r, evs. split; [by rewrite Hsession |].
  split; [exact Htrace |]. split; [exact Hlint |].
  split; [| by split].
  intros Hr. destruct (Hok Hr) as (_ & _ & _ & Hmsg).
  apply Hmsg. vm_compute. discriminate.
Defined.

Example lint_findings_are_appended :
  exists (r : CheckResult) (w' : World),
    Scenario.session Scenario.all_pass
      (<["lint" := "main.py:1: unused import"]> Scenario.run_only)
      Scenario.two_vectors = (Returned r, w') /\
    check_result r = STATUS_OK /\
    lint_success r = false /\
    check_message r = Py.nl +:+ "main.py:1: unused import" +:+ Py.nl.
Proof. eexists _, _. split; [vm_compute; reflexivity |]. by repeat split. Qed.

(** * Further facts *)

(** ** The other exits of the test runner *)

(** When every vector passes (its run command ends with exit code 0 in a
    live container, its output decodes and its canonicalized answer is the
    expected output), [DockerTestThread.run] leaves verdict [OK] with
    [tests_passed = tests_total = len(tests)] and an empty message; each
    vector has been run once, in order. *)
Theorem all_pass_is_ok_for_all (d : Docker) (stdin_file_path : string)
    (tests : list TestVector) (w : World) :
  (forall j t, tests !! j = Some t -> vector_passes d (exec_calls w + j) t) ->
  exists r : CheckResult,
    interp d None (DockerTestThread_run stdin_file_path tests) w
    = (Finished (Some r), after_passes d stdin_file_path tests w) /\
    check_result r = STATUS_OK /\
    tests_passed r = length tests /\
    tests_total r = length tests /\
    check_message r = "" /\
    exec_calls (after_passes d stdin_file_path tests w)
    = (exec_calls w + length tests)%nat.
Proof.
  intros Hpass. unfold DockerTestThread_run. cbv zeta.
  pose proof (run_loop_passes d stdin_file_path
                (set_tests_total (length tests) CheckResult0) tests [] 0 w
                Hpass) as Hrun.
  rewrite app_nil_r in Hrun. rewrite Hrun. cbn [run_loop interp].
  eexists. split; [reflexivity |].
  repeat split. apply exec_calls_after_passes.
Qed.

Lemma all_pass_is_ok_for_all_witness :
  exists r : CheckResult,
    interp Scenario.all_pass None
      (DockerTestThread_run Scenario.stdin_file_path Scenario.two_vectors)
      Scenario.world0
    = (Finished (Some r),
       after_passes Scenario.all_pass Scenario.stdin_file_path
         Scenario.two_vectors Scenario.world0) /\
    check_result r = STATUS_OK /\
    tests_passed r = length Scenario.two_vectors /\
    tests_total r = length Scenario.two_vectors /\
    check_message r = "" /\
    exec_calls (after_passes Scenario.all_pass Scenario.stdin_file_path
                  Scenario.two_vectors Scenario.world0)
    = (exec_calls Scenario.world0 + length Scenario.two_vectors)%nat.
Proof.
  apply (all_pass_is_ok_for_all Scenario.all_pass Scenario.stdin_file_path
           Scenario.two_vectors Scenario.world0).
  intros j t Ht. destruct j as [|[|j]]; simpl in Ht; [| | done].
  - injection Ht as <-. exists ("1" +:+ Py.nl). split; [| reflexivity].
    exists (mkExecResult 0 ("1" +:+ Py.nl)), ("1" +:+ Py.nl).
    repeat split. discriminate.
  - injection Ht as <-. exists "2". split; [| reflexivity].
    exists (mkExecResult 0 ""), "". repeat split. discriminate.
Defined.

Lemma run_vector_exited (d : Docker) (path : string) (result : CheckResult)
    (n : nat) (test : TestVector) (w : World) (er : ExecResult) :
  returns (reply d (exec_calls w)) = Some er ->
  status_after (reply d (exec_calls w)) = "exited" ->
  interp d None (run_vector path result n test) w =
  (Finished (Some (Some (set_tests_passed n
                           (set_check_result STATUS_CHECK_ERROR result)))),
   after_exec d path test w).
Proof.
  intros Hret Hst.
  unfold run_vector. cbn [interp overruns]. cbn [exec_calls create_file log].
  rewrite Hret. cbn [interp]. cbn [container_status log answered].
  by rewrite Hst.
Qed.

(** When the vectors before the [k]-th pass and the container is found
    exited after the [k]-th run command, the runner leaves [CHECK_ERROR] with
    [tests_passed = k - 1] and an empty message, whatever exit code and
    output that command reported; the artifact is not fetched. *)
Theorem exited_container_is_check_error (d : Docker) (stdin_file_path : string)
    (tests : list TestVector) (k : nat) (test : TestVector) (er : ExecResult)
    (w : World) :
  (1 <= k)%nat ->
  tests !! (k - 1)%nat = Some test ->
  (forall j t, (j < k - 1)%nat -> tests !! j = Some t ->
               vector_passes d (exec_calls w + j) t) ->
  returns (reply d (exec_calls w + (k - 1))) = Some er ->
  status_after (reply d (exec_calls w + (k - 1))) = "exited" ->
  exists r : CheckResult,
    interp d None (DockerTestThread_run stdin_file_path tests) w
    = (Finished (Some r),
       after_exec d stdin_file_path test
         (after_passes d stdin_file_path (take (k - 1) tests) w)) /\
    check_result r = STATUS_CHECK_ERROR /\
    tests_passed r = (k - 1)%nat /\
    tests_total r = length tests /\
    check_message r = "".
Proof.
  intros Hk Hlook Hpass Hret Hst.
  destruct (split_at_vector tests k test Hk Hlook) as (Hsplit & Htake & Hlen).
  rewrite (run_until_vector d _ tests k test w Hk Hlook Hpass).
  cbn [run_loop]. rewrite interp_bind.
  erewrite run_vector_exited
    by (rewrite exec_calls_after_passes, Hlen; eassumption).
  cbn [interp]. by eexists.
Qed.

Lemma exited_container_is_check_error_witness :
  exists r : CheckResult,
    interp Scenario.dies_on_second None
      (DockerTestThread_run Scenario.stdin_file_path Scenario.two_vectors)
      Scenario.world0
    = (Finished (Some r),
       after_exec Scenario.dies_on_second Scenario.stdin_file_path ("2", "2")
         (after_passes Scenario.dies_on_second Scenario.stdin_file_path
            (take (2 - 1) Scenario.two_vectors) Scenario.world0)) /\
    check_result r = STATUS_CHECK_ERROR /\
    tests_passed r = (2 - 1)%nat /\
    tests_total r = length Scenario.two_vectors /\
    check_message r = "".
Proof.
  apply (exited_container_is_check_error Scenario.dies_on_second
           Scenario.stdin_file_path Scenario.two_vectors 2 ("2", "2")
           (mkExecResult 1 "Killed") Scenario.world0).
  - lia.
  - reflexivity.
  - intros j t Hj Ht. assert (j = 0%nat) as -> by lia.
    injection Ht as <-. exists ("1" +:+ Py.nl). split; [| reflexivity].
    exists (mkExecResult 0 ("1" +:+ Py.nl)), ("1" +:+ Py.nl).
    repeat split. discriminate.
  - reflexivity.
  - reflexivity.
Defined.

(** When the vectors before the [k]-th pass and the [k]-th run command ends
    with a non-zero exit code in a live container and its output decodes,
    the runner leaves [RUNTIME_ERROR] with the decoded output as the message
    and stops: exactly [k] run commands were issued and the artifact of the
    failing one is not fetched. *)
Theorem nonzero_exit_is_runtime_error (d : Docker) (stdin_file_path : string)
    (tests : list TestVector) (k : nat) (test : TestVector) (er : ExecResult)
    (stdout : string) (w : World) :
  (1 <= k)%nat ->
  tests !! (k - 1)%nat = Some test ->
  (forall j t, (j < k - 1)%nat -> tests !! j = Some t ->
               vector_passes d (exec_calls w + j) t) ->
  returns (reply d (exec_calls w + (k - 1))) = Some er ->
  status_after (reply d (exec_calls w + (k - 1))) <> "exited" ->
  Py.decode (output er) = Some stdout ->
  exit_code er <> 0 ->
  exists (r : CheckResult) (w' : World),
    interp d None (DockerTestThread_run stdin_file_path tests) w
    = (Finished (Some r), w') /\
    w' = after_exec d stdin_file_path test
           (after_passes d stdin_file_path (take (k - 1) tests) w) /\
    check_result r = STATUS_RUNTIME_ERROR /\
    check_message r = stdout /\
    tests_total r = length tests /\
    exec_calls w' = (exec_calls w + k)%nat.
Proof.
  intros Hk Hlook Hpass Hret Hst Hdec Hex.
  destruct (split_at_vector tests k test Hk Hlook) as (Hsplit & Htake & Hlen).
  rewrite (run_until_vector d _ tests k test w Hk Hlook Hpass).
  cbn [run_loop]. rewrite interp_bind.
  erewrite run_vector_runtime_error;
    [| try rewrite exec_calls_after_passes, Hlen; eassumption ..].
  cbn [interp]. eexists _, _. split; [reflexivity |].
  repeat split.
  change (exec_calls (after_exec ?d ?p ?t ?w0)) with (S (exec_calls w0)).
  rewrite exec_calls_after_passes, Hlen. lia.
Qed.

Lemma nonzero_exit_is_runtime_error_witness :
  exists (r : CheckResult) (w' : World),
    interp Scenario.crash_on_second None
      (DockerTestThread_run Scenario.stdin_file_path Scenario.two_vectors)
      Scenario.world0
    = (Finished (Some r), w') /\
    w' = after_exec Scenario.crash_on_second Scenario.stdin_file_path ("2", "2")
           (after_passes Scenario.crash_on_second Scenario.stdin_file_path
              (take (2 - 1) Scenario.two_vectors) Scenario.world0) /\
    check_result r = STATUS_RUNTIME_ERROR /\
    check_message r = "Traceback" /\
    tests_total r = length Scenario.two_vectors /\
    exec_calls w' = (exec_calls Scenario.world0 + 2)%nat.
Proof.
  apply (nonzero_exit_is_runtime_error Scenario.crash_on_second
           Scenario.stdin_file_path Scenario.two_vectors 2 ("2", "2")
           (mkExecResult 1 "Traceback") "Traceback" Scenario.world0).
  - lia.
  - reflexivity.
  - intros j t Hj Ht. assert (j = 0%nat) as -> by lia.
    injection Ht as <-. exists ("1" +:+ Py.nl). split; [| reflexivity].
    exists (mkExecResult 0 ("1" +:+ Py.nl)), ("1" +:+ Py.nl).
    repeat split. discriminate.
  - reflexivity.
  - discriminate.
  - reflexivity.
  - discriminate.
Defined.

(** ** What a thread can leave behind and what it can call *)

Lemma leaves_bind {A B : Type} (Q : A -> Prop) (P : B -> Prop) (p : Prog A)
    (f : A -> Prog B) :
  leaves Q p -> (forall a, Q a -> leaves P (f a)) -> leaves P (bind p f).
Proof.
  intros Hp Hf.
  induction p as [a|e|path content k IH|c wd env k IH|k IH|path k IH];
    cbn [bind leaves] in *; auto.
Qed.

Lemma leaves_interp {R : Type} (P : R -> Prop) (d : Docker) (dl : option N)
    (p : Prog R) (w : World) :
  leaves P p ->
  match fst (interp d dl p w) with
  | Finished (Some r) => P r
  | Finished None => True
  | Blocked k => forall er, leaves P (k er)
  end.
Proof.
  revert w. induction p as [a|e|path content k IH|c wd env k IH|k IH|path k IH];
    intros w Hp; cbn [interp leaves] in *.
  - done.
  - done.
  - by apply IH.
  - destruct (overruns _ _); [done |].
    destruct (returns _); [by apply IH | done].
  - by apply IH.
  - by apply IH.
Qed.

Lemma emits_bind {A B : Type} (P : Event -> Prop) (p : Prog A)
    (f : A -> Prog B) :
  emits P p -> (forall a, emits P (f a)) -> emits P (bind p f).
Proof.
  intros Hp Hf.
  induction p as [a|e|path content k IH|c wd env k IH|k IH|path k IH];
    cbn [bind emits] in *; intuition auto.
Qed.

Lemma calls_between_refl (P : Event -> Prop) (w : World) : calls_between P w w.
Proof. exists []. by rewrite app_nil_r. Qed.

Lemma calls_between_trans (P : Event -> Prop) (w1 w2 w3 : World) :
  calls_between P w1 w2 -> calls_between P w2 w3 -> calls_between P w1 w3.
Proof.
  intros (e1 & H1 & F1) (e2 & H2 & F2). exists (e1 ++ e2).
  split; [by rewrite H2, H1, app_assoc | by apply Forall_app].
Qed.

Lemma calls_between_step (P : Event -> Prop) (e : Event) (w w' : World) :
  P e -> trace w' = trace w ++ [e] -> calls_between P w w'.
Proof. intros He Ht. exists [e]. split; [done | by constructor]. Qed.

Lemma calls_between_mono (P Q : Event -> Prop) (w w' : World) :
  (forall e, P e -> Q e) -> calls_between P w w' -> calls_between Q w w'.
Proof.
  intros HPQ (evs & Ht & F). exists evs. split; [done |].
  eapply Forall_impl; eauto.
Qed.

Lemma emits_interp {R : Type} (P : Event -> Prop) (d : Docker) (dl : option N)
    (p : Prog R) (w : World) :
  emits P p ->
  calls_between P w (snd (interp d dl p w)) /\
  match fst (interp d dl p w) with
  | Blocked k => forall er, emits P (k er)
  | Finished _ => True
  end.
Proof.
  revert w. induction p as [a|e|path content k IH|c wd env k IH|k IH|path k IH];
    intros w Hp; cbn [interp emits] in *.
  - split; [apply calls_between_refl | done].
  - split; [apply calls_between_refl | done].
  - destruct Hp as [He Hk]. destruct (IH (create_file path content w) Hk) as [Hc Hb].
    split; [| done].
    eapply calls_between_trans; [| exact Hc].
    by eapply calls_between_step.
  - destruct Hp as [He Hk]. destruct (overruns _ _).
    { split; [by eapply calls_between_step | done]. }
    destruct (returns _) as [er|].
    + destruct (IH er
                  (answered (now w + duration (reply d (exec_calls w)))
                     (reply d (exec_calls w)) (log (EvExecRun c wd env) w))
                  (Hk er))
        as [Hc Hb].
      split; [| done].
      eapply calls_between_trans; [| exact Hc].
      by eapply calls_between_step.
    + split; [by eapply calls_between_step | done].
  - destruct Hp as [He Hk].
    destruct (IH _ (log EvContainersGet w) (Hk (container_status w))) as [Hc Hb].
    split; [| done].
    eapply calls_between_trans; [| exact Hc].
    by eapply calls_between_step.
  - destruct Hp as [He Hk].
    destruct (IH _ (log (EvGetFile path) w) (Hk (get_file_from_container path w)))
      as [Hc Hb].
    split; [| done].
    eapply calls_between_trans; [| exact Hc].
    by eapply calls_between_step.
Qed.

Lemma leaves_run_vector (path : string) (result : CheckResult) (total n : nat)
    (test : TestVector) :
  tests_total result = total ->
  tests_passed result = 0%nat ->
  lint_success result = false ->
  (n <= total)%nat ->
  leaves (fun stop => match stop with
                      | Some r => runner_result total r
                      | None => True
                      end)
    (run_vector path result n test).
Proof.
  intros Htotal Hpassed Hlint Hn. unfold run_vector. cbn [leaves].
  intros er status.
  destruct (bool_decide _); cbn [leaves].
  { unfold runner_result. cbn. repeat split; auto; try lia; try done. }
  destruct (Py.decode _) as [stdout|]; cbn [leaves]; [| done].
  destruct (negb (exit_code er =? 0)); cbn [leaves].
  { unfold runner_result. cbn. repeat split; auto; try lia; try done. }
  intros fout. destruct (canonicalize _ _) as [answer|]; cbn [leaves]; [| done].
  destruct (negb _); cbn [leaves]; [| done].
  unfold runner_result. cbn. repeat split; auto; try lia; try done.
Qed.

Lemma leaves_run_loop (path : string) (result : CheckResult) (total : nat)
    (tests : list TestVector) (n : nat) :
  tests_total result = total ->
  tests_passed result = 0%nat ->
  lint_success result = false ->
  check_message result = "" ->
  (n + length tests = total)%nat ->
  leaves (runner_result total) (run_loop path result n tests).
Proof.
  intros Htotal Hpassed Hlint Hmsg. revert n.
  induction tests as [|test rest IH]; intros n Hn; cbn [run_loop].
  - cbn [leaves length] in *. unfold runner_result. cbn.
    repeat split; auto; try lia.
  - cbn [length] in Hn.
    eapply leaves_bind.
    + apply (leaves_run_vector path result total n test); auto. lia.
    + intros [r|] Hr; cbn [leaves]; [done |]. apply IH. lia.
Qed.

Lemma leaves_DockerTestThread_run (path : string) (tests : list TestVector) :
  leaves (runner_result (length tests)) (DockerTestThread_run path tests).
Proof. unfold DockerTestThread_run. by apply leaves_run_loop. Qed.

Lemma emits_run_loop (path : string) (result : CheckResult)
    (tests : list TestVector) (n : nat) :
  emits (runner_call path) (run_loop path result n tests).
Proof.
  revert n. induction tests as [|test rest IH]; intros n; cbn [run_loop];
    [done |].
  apply emits_bind.
  - unfold run_vector. cbn [emits runner_call].
    split; [done |]. split; [done |]. intros er. split; [done |].
    intros status. destruct (bool_decide _); [done |].
    destruct (Py.decode _) as [stdout|]; [| done].
    destruct (negb _); [done |]. cbn [emits runner_call]. split; [done |].
    intros fout. destruct (canonicalize _ _); [| done]. by destruct (negb _).
  - intros [r|]; [done | apply IH].
Qed.

Lemma run_vector_exec_calls (d : Docker) (dl : option N) (path : string)
    (result : CheckResult) (n : nat) (test : TestVector) (w : World) :
  exec_calls (snd (interp d dl (run_vector path result n test) w))
  = S (exec_calls w).
Proof.
  unfold run_vector. cbn [interp].
  repeat match goal with
         | |- context [match ?x with _ => _ end] => destruct x; cbn [interp]
         end; reflexivity.
Qed.

Lemma run_loop_exec_calls (d : Docker) (dl : option N) (path : string)
    (result : CheckResult) (tests : list TestVector) (n : nat) (w : World) :
  (exec_calls w <= exec_calls (snd (interp d dl (run_loop path result n tests) w))
   <= exec_calls w + length tests)%nat.
Proof.
  revert n w. induction tests as [|test rest IH]; intros n w; cbn [run_loop].
  - cbn. lia.
  - rewrite interp_bind.
    pose proof (run_vector_exec_calls d dl path result n test w) as Hturn.
    destruct (interp d dl (run_vector path result n test) w)
      as [[[[r|]|]|k0] w0]; cbn [snd interp length] in *; try lia.
    specialize (IH (S n) w0). lia.
Qed.

Lemma emits_host_files {R : Type} (d : Docker) (dl : option N) (path : string)
    (p : Prog R) (w : World) (other : string) :
  emits (runner_call path) p ->
  other <> path ->
  host_files (snd (interp d dl p w)) !! other = host_files w !! other.
Proof.
  intros Hp Hother. revert w Hp.
  induction p as [a|e|path' content k IH|c wd env k IH|k IH|path' k IH];
    intros w Hp; cbn [interp emits runner_call] in *; try done.
  - destruct Hp as [-> Hk]. rewrite IH by done.
    cbn [host_files create_file log]. by apply lookup_insert_ne.
  - destruct Hp as [_ Hk]. destruct (overruns _ _); [done |].
    destruct (returns _) as [er|]; [| done]. by rewrite IH.
  - destruct Hp as [_ Hk]. by rewrite IH.
  - destruct Hp as [_ Hk]. by rewrite IH.
Qed.

(** Whatever the container answers and whenever the wait ends, the test
    thread only writes the input file, issues the run command, queries the
    status and fetches the artifact: it never kills, creates or removes a
    container and never calls the analysis. It issues at most one run command
    per vector and leaves every host file other than the input file as it
    was. *)
Theorem runner_call_discipline (d : Docker) (deadline : option N)
    (stdin_file_path : string) (tests : list TestVector) (w : World) :
  let w' := snd (interp d deadline (DockerTestThread_run stdin_file_path tests) w) in
  calls_between (runner_call stdin_file_path) w w' /\
  (exec_calls w' <= exec_calls w + length tests)%nat /\
  forall other : string,
    other <> stdin_file_path -> host_files w' !! other = host_files w !! other.
Proof.
  cbv zeta. unfold DockerTestThread_run. cbv zeta.
  set (result := set_tests_total (length tests) CheckResult0).
  pose proof (emits_run_loop stdin_file_path result tests 0) as Hemits.
  split; [by apply emits_interp |].
  split; [apply run_loop_exec_calls |].
  intros other Hother. by apply (emits_host_files d deadline stdin_file_path).
Qed.

(** ** Results and calls of the phases *)

Section Grading.

Variable BUILD_TIMEOUT : N.
Variable RUNTIME_TIMEOUT : N.
Variable files_to_tar : gmap string string -> string -> option string.
Variable Finding : Type.
Variable lint_dict : gmap string string -> list Finding.
Variable lint_errors_to_str : list Finding -> string.
Variable cwd : string.
Variable solution_dir : string.
Variable d : Docker.

Local Abbreviation session :=
  (check_task_multiple_files BUILD_TIMEOUT RUNTIME_TIMEOUT files_to_tar Finding
     lint_dict lint_errors_to_str cwd solution_dir d).
Local Abbreviation solution_path := (cwd +:+ "/solutions/" +:+ solution_dir).
Local Abbreviation stdin_file_path :=
  ((solution_path +:+ "/input") +:+ "/input.txt").

Lemma test_solution_leaves (path : string) (tests : list TestVector)
    (w : World) (r : CheckResult) :
  fst (fst (test_solution RUNTIME_TIMEOUT d path tests w)) = Some r ->
  runner_result (length tests) r.
Proof.
  unfold test_solution, start_join.
  pose proof (leaves_interp (runner_result (length tests)) d
                (Some (now w + RUNTIME_TIMEOUT * N.of_nat (length tests))%N)
                (DockerTestThread_run path tests) w
                (leaves_DockerTestThread_run path tests)) as Hrun.
  destruct (interp d _ (DockerTestThread_run path tests) w) as [[[r0|]|k] w1];
    cbn [fst result_of join] in *.
  - by intros [= <-].
  - done.
  - destruct (reply_when_killed d) as [er|]; [| done].
    pose proof (leaves_interp (runner_result (length tests)) d None (k er)
                  (DockerTestThread_terminate w1) (Hrun er)) as Hjoin.
    destruct (interp d None (k er) (DockerTestThread_terminate w1))
      as [[[r1|]|k1] w2]; cbn [fst result_of] in *; [| done | done].
    by intros [= <-].
Qed.

(** Whether the test thread ends within the budget or is killed and then
    unwinds, a result it leaves counts [len(tests)] vectors in total, at most
    that many as passed, has verdict [OK], [CHECK_ERROR] or [RUNTIME_ERROR],
    and has verdict [OK] only with every vector passed and an empty
    message. *)
Theorem test_thread_result_invariant (path : string) (tests : list TestVector)
    (w : World) (r : CheckResult) :
  fst (fst (test_solution RUNTIME_TIMEOUT d path tests w)) = Some r ->
  tests_total r = length tests /\
  (tests_passed r <= length tests)%nat /\
  lint_success r = false /\
  (check_result r = STATUS_OK \/ check_result r = STATUS_CHECK_ERROR \/
   check_result r = STATUS_RUNTIME_ERROR) /\
  (check_result r = STATUS_OK ->
   tests_passed r = length tests /\ check_message r = "").
Proof. intros H. exact (test_solution_leaves path tests w r H). Qed.

Lemma test_phase_result (path : string) (tests : list TestVector)
    (build_time0 : N) (w : World) :
  let r := fst (test_phase RUNTIME_TIMEOUT d path tests build_time0 w) in
  graded_result (length tests) r /\ lint_success r = false /\
  build_time r = build_time0.
Proof.
  cbv zeta. unfold test_phase.
  pose proof (test_solution_leaves path tests w) as Hinv.
  destruct (test_solution RUNTIME_TIMEOUT d path tests w)
    as [[[r0|] test_time] w1]; cbn [fst] in *.
  - destruct (Hinv r0 eq_refl) as (Htotal & Hle & Hlint & Hverdict & Hok).
    unfold graded_result, graded_verdict. cbn.
    split; [| done]. split; [tauto |]. split; [lia |].
    split; [congruence |]. intros H. split; [by apply Hok | done].
  - unfold graded_result, graded_verdict. cbn.
    split; [| done]. split; [tauto |]. split; [lia |]. done.
Qed.

Lemma check_solution_result (path : string) (tests : list TestVector)
    (need_to_build : bool) (w w' : World) (r : CheckResult) :
  check_solution BUILD_TIMEOUT RUNTIME_TIMEOUT d path tests need_to_build w
  = (Returned r, w') ->
  graded_result (length tests) r /\ lint_success r = false.
Proof.
  unfold check_solution.
  assert (Htest : forall build_time0 w0,
    (let '(result, w1) := test_phase RUNTIME_TIMEOUT d path tests build_time0 w0
     in (Returned result, w1)) = (Returned r, w') ->
    graded_result (length tests) r /\ lint_success r = false).
  { intros build_time0 w0.
    destruct (test_phase_result path tests build_time0 w0) as (H1 & H2 & _).
    destruct (test_phase _ _ _ _ _ _) as [r0 w1]. cbn [fst] in *.
    by intros [= <- <-]. }
  destruct need_to_build; [| apply Htest].
  destruct (build_solution BUILD_TIMEOUT d w) as [[[br|] build_time0] w1].
  - destruct (negb _); [| apply Htest].
    destruct (Py.decode _) as [msg|]; [| done]. intros [= <- <-].
    unfold graded_result, graded_verdict. cbn.
    split; [| done]. split; [tauto |]. split; [lia |]. done.
  - intros [= <- <-]. unfold graded_result, graded_verdict. cbn.
    split; [| done]. split; [tauto |]. split; [lia |]. done.
Qed.

Lemma session_graded_result (source_code : gmap string string)
    (tests : list TestVector) (w w' : World) (r : CheckResult) :
  session source_code tests w = (Returned r, w') ->
  graded_result (length tests) r.
Proof.
  assert (Hbuild_error : forall msg,
    graded_result (length tests)
      (set_check_message msg (set_check_result STATUS_BUILD_ERROR CheckResult0))).
  { intros msg. unfold graded_result, graded_verdict. cbn.
    split; [tauto |]. split; [lia |]. done. }
  unfold check_task_multiple_files.
  destruct (source_code !! "Makefile") as [makefile|];
    [| intros [= <- <-]; apply Hbuild_error].
  destruct (lacks_run makefile); [intros [= <- <-]; apply Hbuild_error |].
  unfold provision_and_grade.
  destruct (files_to_tar _ _); [| done].
  destruct (negb _); [done |].
  destruct (check_solution _ _ _ _ _ _ _) as [[r0|exn] w1] eqn:Hcheck;
    [| done].
  destruct (check_solution_result _ _ _ _ _ _ Hcheck) as [Hgraded Hlint].
  unfold lint_phase.
  destruct Hgraded as (Hv & Hle & _ & Hall).
  destruct (Z.eqb_spec (check_result r0) STATUS_OK) as [Hok|Hok].
  - destruct (negb _); intros [= <- <-]; unfold graded_result; cbn;
      (split; [done |]); (split; [done |]); (split; [done |]); done.
  - intros [= <- <-]. unfold graded_result.
    split; [done |]. split; [done |]. split; [congruence | done].
Qed.

(** Every result record a session returns carries one of the six verdicts
    [OK], [BUILD_ERROR], [BUILD_TIMEOUT], [RUNTIME_ERROR], [RUNTIME_TIMEOUT],
    [CHECK_ERROR] (never [CHECKING], [LINT_ERROR], [DRAFT] or the default
    [-1]), has [tests_passed <= tests_total], and has [lint_success] set only
    with verdict [OK]. *)
Theorem session_verdict_taxonomy (source_code : gmap string string)
    (tests : list TestVector) (w w' : World) (r : CheckResult) :
  session source_code tests w = (Returned r, w') ->
  graded_verdict (check_result r) /\
  (tests_passed r <= tests_total r)%nat /\
  (lint_success r = true -> check_result r = STATUS_OK) /\
  check_result r <> STATUS_CHECKING /\
  check_result r <> STATUS_LINT_ERROR /\
  check_result r <> STATUS_DRAFT /\
  check_result r <> -1.
Proof.
  intros Hs. destruct (session_graded_result _ _ _ _ _ Hs) as (Hv & Hle & Hl & _).
  repeat split; try done;
    intros Heq; rewrite Heq in Hv;
    unfold graded_verdict in Hv; intuition discriminate.
Qed.


(** *** Calls of the phases *)

Lemma join_calls {R : Type} (P : Event -> Prop) (o : Outcome R) (w : World) :
  match o with
  | Blocked k => forall er, emits P (k er)
  | Finished _ => True
  end ->
  calls_between P w (snd (join d o w)).
Proof.
  destruct o as [r|k]; cbn [join]; [intros _; apply calls_between_refl |].
  intros Hk. destruct (reply_when_killed d) as [er|];
    [| apply calls_between_refl].
  destruct (emits_interp P d None (k er) w (Hk er)) as [Hc _].
  by destruct (interp d None (k er) w).
Qed.

Lemma test_phase_calls (path : string) (tests : list TestVector)
    (build_time0 : N) (w : World) :
  calls_between (fun e => runner_call path e \/ e = EvKill) w
    (snd (test_phase RUNTIME_TIMEOUT d path tests build_time0 w)).
Proof.
  set (P := fun e => runner_call path e \/ e = EvKill).
  assert (Hemits : emits P (DockerTestThread_run path tests)).
  { unfold DockerTestThread_run. cbv zeta.
    pose proof (emits_run_loop path
                  (set_tests_total (length tests) CheckResult0) tests 0) as H.
    revert H. generalize (run_loop path
                  (set_tests_total (length tests) CheckResult0) 0 tests).
    intros p. induction p; cbn [emits]; try done; intuition auto;
      unfold P; by left. }
  unfold test_phase, test_solution, start_join.
  destruct (emits_interp P d
              (Some (now w + RUNTIME_TIMEOUT * N.of_nat (length tests))%N)
              (DockerTestThread_run path tests) w Hemits) as [Hrun Hblocked].
  destruct (interp d _ (DockerTestThread_run path tests) w) as [o w1].
  cbn [fst snd] in *. destruct (result_of o); [done |].
  pose proof (join_calls P o (DockerTestThread_terminate w1) Hblocked) as Hjoin.
  destruct (join d o (DockerTestThread_terminate w1)) as [r w2].
  cbn [snd] in *. eapply calls_between_trans; [exact Hrun |].
  eapply calls_between_trans; [| exact Hjoin].
  eapply calls_between_trans.
  - eapply (calls_between_step P EvContainersGet w1 (log EvContainersGet w1));
      [by left | done].
  - eapply calls_between_step; [by right | done].
Qed.

Lemma build_solution_calls (path : string) (w : World) :
  calls_between (phase_call path) w (snd (build_solution BUILD_TIMEOUT d w)).
Proof.
  assert (Hemits : emits (phase_call path) (DockerBuildThread_run "/root/source")).
  { cbn. split; [by right; right | done]. }
  unfold build_solution, start_join.
  destruct (emits_interp (phase_call path) d (Some (now w + BUILD_TIMEOUT)%N)
              (DockerBuildThread_run "/root/source") w Hemits)
    as [Hrun Hblocked].
  destruct (interp d _ (DockerBuildThread_run "/root/source") w) as [o w1].
  cbn [fst snd] in *. destruct (result_of o); [done |].
  pose proof (join_calls (phase_call path) o (DockerBuildThread_terminate w1)
                Hblocked) as Hjoin.
  destruct (join d o (DockerBuildThread_terminate w1)) as [r w2].
  cbn [snd] in *. eapply calls_between_trans; [exact Hrun |].
  eapply calls_between_trans; [| exact Hjoin].
  eapply calls_between_step; [by right; left | done].
Qed.

Lemma check_solution_calls (path : string) (tests : list TestVector)
    (need_to_build : bool) (w : World) :
  calls_between (phase_call path) w
    (snd (check_solution BUILD_TIMEOUT RUNTIME_TIMEOUT d path tests
            need_to_build w)).
Proof.
  assert (Htest : forall build_time0 w0,
    calls_between (phase_call path) w0
      (snd (let '(result, w1) :=
              test_phase RUNTIME_TIMEOUT d path tests build_time0 w0
            in (Returned result, w1)))).
  { intros build_time0 w0.
    pose proof (test_phase_calls path tests build_time0 w0) as Hcalls.
    destruct (test_phase _ _ _ _ _ _) as [r0 w1]. cbn [snd] in *.
    eapply calls_between_mono; [| exact Hcalls].
    intros e [H|H]; [by left | by right; left]. }
  unfold check_solution. destruct need_to_build; [| apply Htest].
  pose proof (build_solution_calls path w) as Hbuild.
  destruct (build_solution BUILD_TIMEOUT d w) as [[build_result build_time0] w1].
  cbn [snd] in Hbuild. destruct build_result as [br|]; [| done].
  destruct (negb _); [by destruct (Py.decode _) |].
  eapply calls_between_trans; [exact Hbuild | apply Htest].
Qed.

(** A session that returns a result record either made no call at all and
    left the world as it was (the recipe is refused), or its calls are
    [containers.run], [put_archive], then only calls of the two phases, the
    analysis and [rmtree], and last [remove_container]: one container is
    created, and it is removed before the record is returned. *)
Theorem session_call_framing (source_code : gmap string string)
    (tests : list TestVector) (w w' : World) (r : CheckResult) :
  session source_code tests w = (Returned r, w') ->
  w' = w \/
  exists mid : list Event,
    trace w' = trace w
               ++ [EvContainersRun "liokorcode_checker"; EvPutArchive]
               ++ mid ++ [EvRemoveContainer] /\
    Forall (fun e => phase_call stdin_file_path e \/ e = EvLint \/
                     e = EvRmtree solution_path) mid.
Proof.
  unfold check_task_multiple_files.
  destruct (source_code !! "Makefile") as [makefile|];
    [| intros [= _ <-]; by left].
  destruct (lacks_run makefile); [intros [= _ <-]; by left |].
  unfold provision_and_grade.
  destruct (files_to_tar _ _); [| done].
  destruct (negb _); [done |].
  pose proof (check_solution_calls stdin_file_path tests
                (need_to_build_of makefile)
                (log EvPutArchive (containers_run w))) as (evs & Ht & Hevs).
  destruct (check_solution _ _ _ _ _ _ _) as [[r0|exn] w1]; [| done].
  cbn [snd] in *. cbn [trace log containers_run] in Ht.
  assert (Hphase : Forall (fun e => phase_call stdin_file_path e \/ e = EvLint \/
                                    e = EvRmtree solution_path) evs).
  { eapply Forall_impl; [exact Hevs |]. intros e He. by left. }
  unfold lint_phase. destruct (check_result r0 =? STATUS_OK).
  - intros Hs. right.
    exists (evs ++ [EvLint; EvRmtree solution_path]). split.
    + destruct (negb _); injection Hs as _ <-; cbn; rewrite Ht;
        by rewrite <- !app_assoc.
    + apply Forall_app. split; [done |].
      apply Forall_cons. split; [by right; left |].
      apply Forall_cons. split; [by right; right | constructor].
  - intros [= _ <-]. right.
    exists (evs ++ [EvRmtree solution_path]). split.
    + cbn. rewrite Ht. by rewrite <- !app_assoc.
    + apply Forall_app. split; [done |].
      apply Forall_cons. split; [by right; right | constructor].
Qed.

(** When the recipe is accepted and packaging the files fails, the session
    raises [Unable to parse source code!] and has made no call: no container
    is created. *)
Theorem packaging_failure_raises (source_code : gmap string string)
    (makefile : string) (tests : list TestVector) (w : World) :
  source_code !! "Makefile" = Some makefile ->
  Py.contains makefile "run:" ->
  files_to_tar source_code "source/" = None ->
  session source_code tests w = (Raised "Unable to parse source code!", w).
Proof.
  intros Hmk Hrun Htar.
  unfold check_task_multiple_files. rewrite Hmk.
  apply lacks_run_spec in Hrun. rewrite Hrun.
  unfold provision_and_grade. by rewrite Htar.
Qed.

(** When the recipe is accepted, the files are packaged and injecting the
    archive fails, the session raises [Unable to create requested
    filesystem!]; the container it created is removed first and no phase is
    started: the calls are [containers.run], [put_archive],
    [remove_container]. *)
Theorem injection_failure_removes_container (source_code : gmap string string)
    (makefile tar_source : string) (tests : list TestVector) (w : World) :
  source_code !! "Makefile" = Some makefile ->
  Py.contains makefile "run:" ->
  files_to_tar source_code "source/" = Some tar_source ->
  put_archive_ok d = false ->
  exists w' : World,
    session source_code tests w
    = (Raised "Unable to create requested filesystem!", w') /\
    trace w' = trace w ++
      [EvContainersRun "liokorcode_checker"; EvPutArchive; EvRemoveContainer] /\
    host_files w' = host_files w.
Proof.
  intros Hmk Hrun Htar Hput.
  unfold check_task_multiple_files. rewrite Hmk.
  apply lacks_run_spec in Hrun. rewrite Hrun.
  unfold provision_and_grade. rewrite Htar, Hput. cbn [negb].
  eexists. split; [reflexivity |].
  cbn. by rewrite <- !app_assoc.
Qed.

(** *** The build phase and the worker that raises *)

(** In a session that needs a build, when [make build] ends within the
    budget with a non-zero exit code and its output decodes, the verdict is
    [BUILD_ERROR] with the decoded build output as the message,
    [tests_total = len(tests)] and nothing passed; the container is not
    killed and the test phase is not started: the session goes straight to
    the teardown. *)
Theorem failed_build_is_build_error (source_code : gmap string string)
    (makefile tar_source : string) (tests : list TestVector) (er : ExecResult)
    (msg : string) (w : World) :
  source_code !! "Makefile" = Some makefile ->
  Py.contains makefile "run:" ->
  Py.contains makefile "build:" ->
  files_to_tar source_code "source/" = Some tar_source ->
  put_archive_ok d = true ->
  (duration (reply d 0) <= BUILD_TIMEOUT)%N ->
  returns (reply d 0) = Some er ->
  exit_code er <> 0 ->
  Py.decode (output er) = Some msg ->
  exists (r : CheckResult) (w' : World),
    session source_code tests w = (Returned r, w') /\
    check_result r = STATUS_BUILD_ERROR /\
    check_message r = msg /\
    build_time r = duration (reply d 0) /\
    tests_passed r = 0%nat /\
    tests_total r = length tests /\
    trace w' = trace w ++
      [EvContainersRun "liokorcode_checker"; EvPutArchive;
       EvExecRun "make build" "/root/source" [];
       EvRmtree solution_path; EvRemoveContainer].
Proof.
  intros Hmk Hrun Hbuild Htar Hput Hfast Hret Hex Hdec.
  unfold check_task_multiple_files. rewrite Hmk.
  apply lacks_run_spec in Hrun. apply need_to_build_spec in Hbuild.
  rewrite Hrun, Hbuild. unfold provision_and_grade. rewrite Htar, Hput.
  cbn [negb]. unfold check_solution, build_solution, start_join,
    DockerBuildThread_run.
  cbn [interp overruns]. cbn [now exec_calls log containers_run].
  assert (Hover : (now w + BUILD_TIMEOUT <? now w + duration (reply d 0))%N = false)
    by (apply N.ltb_ge; lia).
  rewrite Hover, Hret. cbn [interp result_of].
  apply Z.eqb_neq in Hex. rewrite Hex. cbn [negb]. rewrite Hdec.
  unfold lint_phase. cbn [check_result set_tests_total set_check_message
                            set_check_result set_build_time CheckResult0].
  eexists _, _. split; [reflexivity |].
  cbn. rewrite <- !app_assoc.
  replace (now w + duration (reply d 0) - now w)%N
    with (duration (reply d 0)) by lia.
  by repeat split.
Qed.

(** In a session that needs a build, when [make build] ends within the
    budget with a non-zero exit code and an output that is not UTF-8, the
    [decode] of line 198 raises out of the session: no record is returned,
    and the calls end at the build command, so the solution directory is
    not deleted and the container is not removed. *)
Theorem undecodable_build_output_raises (source_code : gmap string string)
    (makefile tar_source : string) (tests : list TestVector) (er : ExecResult)
    (w : World) :
  source_code !! "Makefile" = Some makefile ->
  Py.contains makefile "run:" ->
  Py.contains makefile "build:" ->
  files_to_tar source_code "source/" = Some tar_source ->
  put_archive_ok d = true ->
  (duration (reply d 0) <= BUILD_TIMEOUT)%N ->
  returns (reply d 0) = Some er ->
  exit_code er <> 0 ->
  Py.decode (output er) = None ->
  exists w' : World,
    session source_code tests w = (Raised "UnicodeDecodeError", w') /\
    trace w' = trace w ++
      [EvContainersRun "liokorcode_checker"; EvPutArchive;
       EvExecRun "make build" "/root/source" []] /\
    ~ In EvRemoveContainer (drop (length (trace w)) (trace w')).
Proof.
  intros Hmk Hrun Hbuild Htar Hput Hfast Hret Hex Hdec.
  unfold check_task_multiple_files. rewrite Hmk.
  apply lacks_run_spec in Hrun. apply need_to_build_spec in Hbuild.
  rewrite Hrun, Hbuild. unfold provision_and_grade. rewrite Htar, Hput.
  cbn [negb]. unfold check_solution, build_solution, start_join,
    DockerBuildThread_run.
  cbn [interp overruns]. cbn [now exec_calls log containers_run].
  assert (Hover : (now w + BUILD_TIMEOUT <? now w + duration (reply d 0))%N = false)
    by (apply N.ltb_ge; lia).
  rewrite Hover, Hret. cbn [interp result_of].
  apply Z.eqb_neq in Hex. rewrite Hex. cbn [negb]. rewrite Hdec.
  eexists. split; [reflexivity |].
  cbn. rewrite <- !app_assoc. split; [reflexivity |].
  rewrite drop_app_length. cbn. intuition discriminate.
Qed.

(** When the [exec_run] of [make build] raises inside the build thread, the
    thread ends without a result; the session reports this as
    [BUILD_TIMEOUT] although the budget has not run out, kills the container
    and skips the test phase. *)
Theorem raising_build_is_build_timeout (source_code : gmap string string)
    (makefile tar_source : string) (tests : list TestVector) (w : World) :
  source_code !! "Makefile" = Some makefile ->
  Py.contains makefile "run:" ->
  Py.contains makefile "build:" ->
  files_to_tar source_code "source/" = Some tar_source ->
  put_archive_ok d = true ->
  (duration (reply d 0) <= BUILD_TIMEOUT)%N ->
  returns (reply d 0) = None ->
  exists (r : CheckResult) (w' : World),
    session source_code tests w = (Returned r, w') /\
    check_result r = STATUS_BUILD_TIMEOUT /\
    build_time r = duration (reply d 0) /\
    tests_total r = length tests /\
    trace w' = trace w ++
      [EvContainersRun "liokorcode_checker"; EvPutArchive;
       EvExecRun "make build" "/root/source" []; EvKill;
       EvRmtree solution_path; EvRemoveContainer].
Proof.
  intros Hmk Hrun Hbuild Htar Hput Hfast Hret.
  unfold check_task_multiple_files. rewrite Hmk.
  apply lacks_run_spec in Hrun. apply need_to_build_spec in Hbuild.
  rewrite Hrun, Hbuild. unfold provision_and_grade. rewrite Htar, Hput.
  cbn [negb]. unfold check_solution, build_solution, start_join,
    DockerBuildThread_run.
  cbn [interp overruns]. cbn [now exec_calls log containers_run].
  assert (Hover : (now w + BUILD_TIMEOUT <? now w + duration (reply d 0))%N = false)
    by (apply N.ltb_ge; lia).
  rewrite Hover, Hret. cbn [result_of join].
  unfold lint_phase. cbn [check_result set_tests_total set_check_result
                            set_build_time CheckResult0].
  eexists _, _. split; [reflexivity |].
  cbn. rewrite <- !app_assoc.
  replace (now w + duration (reply d 0) - now w)%N
    with (duration (reply d 0)) by lia.
  by repeat split.
Qed.

(** When the recipe holds [run:] but not [build:], the build phase is
    skipped: the returned record has [build_time = 0] and no call of the
    session executes [make build]. *)
Theorem no_build_text_skips_build (source_code : gmap string string)
    (makefile tar_source : string) (tests : list TestVector) (w : World) :
  source_code !! "Makefile" = Some makefile ->
  Py.contains makefile "run:" ->
  ~ Py.contains makefile "build:" ->
  files_to_tar source_code "source/" = Some tar_source ->
  put_archive_ok d = true ->
  exists (r : CheckResult) (w' : World) (evs : list Event),
    session source_code tests w = (Returned r, w') /\
    build_time r = 0%N /\
    trace w' = trace w ++ evs /\
    Forall (fun e => forall wd env, e <> EvExecRun "make build" wd env) evs.
Proof.
  intros Hmk Hrun Hbuild Htar Hput.
  unfold check_task_multiple_files. rewrite Hmk.
  apply lacks_run_spec in Hrun. rewrite <- need_to_build_spec in Hbuild.
  rewrite Hrun. destruct (need_to_build_of makefile); [done |].
  unfold provision_and_grade. rewrite Htar, Hput. cbn [negb].
  unfold check_solution.
  pose proof (test_phase_calls stdin_file_path tests 0%N
                (log EvPutArchive (containers_run w))) as (evs & Ht & Hevs).
  destruct (test_phase_result stdin_file_path tests 0%N
              (log EvPutArchive (containers_run w))) as (_ & _ & Hbt).
  destruct (test_phase _ _ _ _ _ _) as [r0 w1]. cbn [fst snd] in *.
  cbn [trace log containers_run] in Ht.
  assert (Hnot : Forall (fun e => forall wd env, e <> EvExecRun "make build" wd env)
                   evs).
  { eapply Forall_impl; [exact Hevs |].
    intros e [He | ->] wd env Heq; [| done]. subst e.
    destruct He as [He _]. discriminate He. }
  unfold lint_phase. destruct (check_result r0 =? STATUS_OK).
  - exists (if negb (Py.len (lint_errors_to_str (lint_dict source_code)) =? 0)
            then set_check_message
                   (check_message r0 +:+ Py.nl
                    +:+ lint_errors_to_str (lint_dict source_code))
                   (set_lint_success false r0)
            else set_lint_success true r0).
    eexists _,
      ([EvContainersRun "liokorcode_checker"; EvPutArchive] ++ evs
       ++ [EvLint; EvRmtree solution_path; EvRemoveContainer]).
    split; [by destruct (Py.len _ =? 0) |].
    split; [by destruct (Py.len _ =? 0) |].
    split; [cbn; rewrite Ht; by rewrite <- !app_assoc |].
    apply Forall_app. split; [by repeat constructor |].
    apply Forall_app. split; [done | by repeat constructor].
  - eexists r0, _,
      ([EvContainersRun "liokorcode_checker"; EvPutArchive] ++ evs
       ++ [EvRmtree solution_path; EvRemoveContainer]).
    split; [reflexivity |]. split; [done |].
    split; [cbn; rewrite Ht; by rewrite <- !app_assoc |].
    apply Forall_app. split; [by repeat constructor |].
    apply Forall_app. split; [done | by repeat constructor].
Qed.

(** When the engine raises from the first run command within the budget,
    the test thread ends without a result: the phase is reported as
    [RUNTIME_TIMEOUT] with [tests_passed = tests_total = 0], and the
    container is killed although the thread has ended. *)
Theorem raising_run_is_runtime_timeout (path : string) (test : TestVector)
    (rest : list TestVector) (build_time0 : N) (w : World) :
  returns (reply d (exec_calls w)) = None ->
  (duration (reply d (exec_calls w))
   <= RUNTIME_TIMEOUT * N.of_nat (length (test :: rest)))%N ->
  exists (r : CheckResult) (w' : World),
    test_phase RUNTIME_TIMEOUT d path (test :: rest) build_time0 w = (r, w') /\
    check_result r = STATUS_RUNTIME_TIMEOUT /\
    tests_passed r = 0%nat /\
    tests_total r = 0%nat /\
    check_time r = duration (reply d (exec_calls w)) /\
    container_status w' = "exited" /\
    trace w' = trace w ++
      [EvCreateFile path (fst test +:+ Py.nl);
       EvExecRun run_command source_path run_environment;
       EvContainersGet; EvKill].
Proof.
  intros Hret Hfast.
  unfold test_phase, test_solution, start_join, DockerTestThread_run.
  cbv zeta. cbn [run_loop]. rewrite interp_bind.
  unfold run_vector. cbn [interp overruns].
  cbn [now exec_calls create_file log].
  set (budget := (RUNTIME_TIMEOUT * N.of_nat (length (test :: rest)))%N) in *.
  assert (Hover : (now w + budget <? now w + duration (reply d (exec_calls w)))%N
                  = false) by (apply N.ltb_ge; lia).
  rewrite Hover, Hret. cbn [result_of join].
  eexists _, _. split; [reflexivity |].
  cbn. rewrite <- !app_assoc.
  replace (now w + duration (reply d (exec_calls w)) - now w)%N
    with (duration (reply d (exec_calls w))) by lia.
  by repeat split.
Qed.

(** When the first run command ends within the budget in a live container
    with an output that is not UTF-8, the [decode] of line 120 raises inside
    the test thread, whatever the exit code and the artifact: the thread
    ends without a result, the artifact is not fetched, the container is
    killed, and the phase is reported as [RUNTIME_TIMEOUT] with
    [tests_passed = tests_total = 0]. *)
Theorem undecodable_run_output_is_runtime_timeout (path : string)
    (test : TestVector) (rest : list TestVector) (build_time0 : N) (w : World)
    (er : ExecResult) :
  returns (reply d (exec_calls w)) = Some er ->
  status_after (reply d (exec_calls w)) <> "exited" ->
  Py.decode (output er) = None ->
  (duration (reply d (exec_calls w))
   <= RUNTIME_TIMEOUT * N.of_nat (length (test :: rest)))%N ->
  exists (r : CheckResult) (w' : World),
    test_phase RUNTIME_TIMEOUT d path (test :: rest) build_time0 w = (r, w') /\
    check_result r = STATUS_RUNTIME_TIMEOUT /\
    tests_passed r = 0%nat /\
    tests_total r = 0%nat /\
    check_message r = EmptyString /\
    trace w' = trace w ++
      [EvCreateFile path (fst test +:+ Py.nl);
       EvExecRun run_command source_path run_environment;
       EvContainersGet; EvContainersGet; EvKill].
Proof.
  intros Hret Hst Hdec Hfast.
  unfold test_phase, test_solution, start_join, DockerTestThread_run.
  cbv zeta. cbn [run_loop]. rewrite interp_bind.
  unfold run_vector. cbn [interp overruns].
  cbn [now exec_calls create_file log].
  set (budget := (RUNTIME_TIMEOUT * N.of_nat (length (test :: rest)))%N) in *.
  assert (Hover : (now w + budget <? now w + duration (reply d (exec_calls w)))%N
                  = false) by (apply N.ltb_ge; lia).
  rewrite Hover, Hret. cbn [interp]. cbn [container_status log answered].
  rewrite bool_decide_eq_false_2 by done. rewrite Hdec.
  cbn [interp result_of join].
  eexists _, _. split; [reflexivity |].
  cbn. rewrite <- !app_assoc.
  by repeat split.
Qed.

End Grading.

(** ** The comparison, for an expected output that is not empty *)

Lemma drop_last_append (s : string) :
  Py.last_char s = Some Py.NL -> s = Py.drop_last s +:+ Py.nl.
Proof.
  induction s as [|c s IH]; [done |].
  destruct s as [|c' s'].
  - cbn. by intros [= ->].
  - intros H. change (Py.last_char (String c' s') = Some Py.NL) in H.
    change (Py.drop_last (String c (String c' s')))
      with (String c (Py.drop_last (String c' s'))).
    rewrite append_cons. by rewrite <- IH.
Qed.

(** With a non-empty expected output the comparison never raises, and the
    answer it compares is the obtained answer itself or that answer minus
    exactly one trailing line terminator. *)
Theorem comparison_total_for_nonempty_expected (answer expected : string) :
  expected <> "" ->
  exists a : string,
    canonicalize answer expected = Some a /\
    (a = answer \/ answer = a +:+ Py.nl).
Proof.
  intros Hne. unfold canonicalize.
  destruct (0 <? Py.len answer); cbn [andb]; [| by eexists; eauto].
  destruct (bool_decide_reflect (Py.last_char answer = Some Py.NL)) as [Ha|Ha];
    [| by eexists; eauto].
  destruct (Py.last_char expected) as [c|] eqn:E.
  - destruct (negb _); eexists; split; try reflexivity; [right | by left].
    by apply drop_last_append.
  - by apply last_char_None in E.
Qed.

Lemma comparison_total_for_nonempty_expected_witness :
  exists a : string,
    canonicalize ("3" +:+ Py.nl +:+ Py.nl) "3" = Some a /\
    (a = "3" +:+ Py.nl +:+ Py.nl \/ "3" +:+ Py.nl +:+ Py.nl = a +:+ Py.nl).
Proof.
  apply (comparison_total_for_nonempty_expected ("3" +:+ Py.nl +:+ Py.nl) "3").
  discriminate.
Defined.

(** The newline-stripping law: against a non-empty expected output without a
    trailing line terminator, an answer that ends in a line terminator
    compares equal exactly when the answer minus that one terminator is the
    expected output. *)
Theorem newline_law_for_nonempty_expected (body expected : string) :
  expected <> "" ->
  Py.last_char expected <> Some Py.NL ->
  canonicalize (body +:+ Py.nl) expected = Some expected <-> body = expected.
Proof.
  intros Hne Hlast. rewrite canonicalize_strips_one by done.
  split; congruence.
Qed.

Lemma newline_law_for_nonempty_expected_witness :
  canonicalize ("3" +:+ Py.nl) "3" = Some "3" <-> "3" = "3".
Proof.
  apply (newline_law_for_nonempty_expected "3" "3"); discriminate.
Defined.

(** No other normalization: when the answer does not end in a line
    terminator, or the expected output does, the two compare equal exactly
    when they are the same text. *)
Theorem comparison_exact_without_strip (answer expected : string) :
  Py.last_char answer <> Some Py.NL \/ Py.last_char expected = Some Py.NL ->
  canonicalize answer expected = Some expected <-> answer = expected.
Proof.
  intros H. rewrite canonicalize_exact by done. split; congruence.
Qed.

Lemma comparison_exact_without_strip_witness :
  canonicalize ("3" +:+ Py.nl) ("3" +:+ Py.nl) = Some ("3" +:+ Py.nl)
  <-> "3" +:+ Py.nl = "3" +:+ Py.nl.
Proof.
  apply (comparison_exact_without_strip ("3" +:+ Py.nl) ("3" +:+ Py.nl)).
  right. reflexivity.
Defined.

(** ** [CheckResult.json] *)

Lemma has_char_append (c : ascii) (s t : string) :
  has_char c (s +:+ t) = has_char c s || has_char c t.
Proof.
  induction s as [|c' s IH]; [done |].
  rewrite append_cons. cbn [has_char]. rewrite IH. by rewrite orb_assoc.
Qed.

Lemma split_on_pieces (sep : ascii) (s : string) :
  split_on sep s <> [] /\ Forall (fun piece => has_char sep piece = false)
                           (split_on sep s).
Proof.
  induction s as [|c s [IHne IH]]; cbn [split_on].
  - split; [done | by repeat constructor].
  - destruct (Ascii.eqb c sep) eqn:E.
    + split; [done |]. by constructor.
    + destruct (split_on sep s) as [|word words]; [done |].
      split; [done |]. apply Forall_cons in IH as [Hw Hws].
      constructor; [| done]. cbn [has_char]. rewrite Hw.
      by rewrite Ascii.eqb_sym, E.
Qed.

Lemma split_on_snake (sep : ascii) (words : list string) (first : string) :
  has_char sep first = false ->
  Forall (fun word => has_char sep word = false) words ->
  split_on sep (first +:+ join_words (map (String sep) words)) = first :: words.
Proof.
  revert first. induction words as [|word words IH]; intros first Hfirst Hwords.
  - cbn [map join_words fold_right].
    induction first as [|c first IHf]; [done |].
    rewrite append_cons. cbn [split_on has_char] in *.
    apply orb_false_iff in Hfirst as [Hc Hf].
    rewrite Ascii.eqb_sym, Hc. by rewrite IHf.
  - apply Forall_cons in Hwords as [Hword Hwords].
    cbn [map join_words fold_right].
    change (String sep word +:+ fold_right String.append "" (map (String sep) words))
      with (String sep (word +:+ join_words (map (String sep) words))).
    induction first as [|c first IHf].
    + rewrite append_nil. cbn [split_on]. rewrite Ascii.eqb_refl.
      by rewrite IH.
    + rewrite append_cons. cbn [split_on has_char] in *.
      apply orb_false_iff in Hfirst as [Hc Hf].
      rewrite Ascii.eqb_sym, Hc. by rewrite IHf.
Qed.

Lemma upper_underscore (c : ascii) :
  Ascii.eqb "_" (upper c) = Ascii.eqb "_" c.
Proof. destruct c as [[] [] [] [] [] [] [] []]; reflexivity. Qed.

Lemma lower_underscore (c : ascii) :
  Ascii.eqb "_" (lower c) = Ascii.eqb "_" c.
Proof. destruct c as [[] [] [] [] [] [] [] []]; reflexivity. Qed.

Lemma capitalize_underscore (word : string) :
  has_char "_" (capitalize word) = has_char "_" word.
Proof.
  destruct word as [|c rest]; [done |]. cbn [capitalize has_char].
  rewrite upper_underscore. f_equal.
  induction rest as [|c' rest IH]; [done |].
  cbn [lower_all has_char]. by rewrite lower_underscore, IH.
Qed.

Lemma join_capitalized_underscore (words : list string) :
  Forall (fun word => has_char "_" word = false) words ->
  has_char "_" (join_words (map capitalize words)) = false.
Proof.
  induction 1 as [|word words Hword Hwords IH]; [done |].
  cbn [map join_words fold_right]. rewrite has_char_append.
  rewrite capitalize_underscore, Hword. exact IH.
Qed.

(** The key [json] writes for an attribute never holds an underscore,
    whatever the attribute is called. *)
Theorem new_key_has_no_underscore (key : string) :
  has_char "_" (new_key key) = false.
Proof.
  unfold new_key. cbv zeta.
  destruct (split_on_pieces "_" key) as [Hne Hpieces].
  destruct (split_on "_" key) as [|first words]; [done |].
  apply Forall_cons in Hpieces as [Hfirst Hwords].
  cbn [hd tl]. rewrite has_char_append, Hfirst.
  by apply join_capitalized_underscore.
Qed.

Lemma append_empty_r (s : string) : s +:+ "" = s.
Proof.
  induction s as [|c s IH]; [done |]. by rewrite append_cons, IH.
Qed.

Lemma concat_underscore_snake (first : string) (words : list string) :
  String.concat "_" (first :: words) = snake first words.
Proof.
  unfold snake. revert first.
  induction words as [|word words IH]; intros first.
  - cbn [String.concat map join_words fold_right]. by rewrite append_empty_r.
  - change (String.concat "_" (first :: word :: words))
      with (first +:+ "_" +:+ String.concat "_" (word :: words)).
    rewrite IH. cbn [map join_words fold_right].
    by rewrite !append_cons, append_nil.
Qed.

Lemma concat_empty_join (words : list string) :
  String.concat "" words = join_words words.
Proof.
  induction words as [|word words IH]; [done |].
  cbn [join_words fold_right]. fold (join_words words). rewrite <- IH.
  destruct words as [|word' words]; [by rewrite append_empty_r |].
  change (String.concat "" (word :: word' :: words))
    with (word +:+ "" +:+ String.concat "" (word' :: words)).
  by rewrite append_nil.
Qed.

Lemma has_char_In (c : ascii) (s : string) :
  ~ In c (list_ascii_of_string s) -> has_char c s = false.
Proof.
  induction s as [|c' s IH]; [done |]. cbn [list_ascii_of_string In has_char].
  intros H. rewrite IH by tauto.
  destruct (Ascii.eqb_spec c c') as [->|]; [tauto | done].
Qed.

Lemma lower_all_map (s : string) :
  lower_all s = string_of_list_ascii (map lower (list_ascii_of_string s)).
Proof.
  induction s as [|c s IH]; [done |].
  cbn [lower_all list_ascii_of_string map string_of_list_ascii]. by rewrite IH.
Qed.

(** An ASCII attribute name [first_w1_w2...] whose parts hold no underscore
    is renamed to [first] followed by each further part capitalized: the
    first character of a part goes from [a..z] to [A..Z] (32 code points
    down), its other characters go from [A..Z] to [a..z], and every other
    ASCII character is kept; a name without underscores is kept as it is. *)
Theorem new_key_of_snake (first : string) (words : list string) :
  ~ In "_"%char (list_ascii_of_string first) ->
  Forall (fun word =>
            Forall (fun c => c <> "_"%char /\ (nat_of_ascii c < 128)%nat)
              (list_ascii_of_string word)) words ->
  let up := fun c : ascii =>
    if ((97 <=? nat_of_ascii c) && (nat_of_ascii c <=? 122))%nat
    then ascii_of_nat (nat_of_ascii c - 32) else c in
  let low := fun c : ascii =>
    if ((65 <=? nat_of_ascii c) && (nat_of_ascii c <=? 90))%nat
    then ascii_of_nat (nat_of_ascii c + 32) else c in
  let cap := fun word : string =>
    match list_ascii_of_string word with
    | [] => EmptyString
    | c :: rest => string_of_list_ascii (up c :: map low rest)
    end in
  new_key (String.concat "_" (first :: words))
  = first +:+ String.concat "" (map cap words).
Proof.
  intros Hfirst Hwords up low cap.
  rewrite concat_underscore_snake, concat_empty_join.
  unfold new_key, snake. cbv zeta.
  rewrite split_on_snake.
  - cbn [hd tl]. do 2 f_equal. apply map_ext. intros word.
    destruct word as [|c rest]; [done |].
    cbn [capitalize]. subst cap. cbn [list_ascii_of_string string_of_list_ascii].
    by rewrite lower_all_map.
  - by apply has_char_In.
  - eapply Forall_impl; [exact Hwords |]. intros word Hword.
    apply has_char_In. intros Hin.
    rewrite Forall_forall in Hword. apply list_elem_of_In in Hin.
    by destruct (Hword _ Hin).
Qed.

Lemma new_key_of_snake_witness :
  new_key "tests_PASSED_x9" = "testsPassedX9".
Proof.
  assert (Hfirst : ~ In "_"%char (list_ascii_of_string "tests"))
    by (cbn; intuition discriminate).
  assert (Hwords : Forall (fun word =>
            Forall (fun c => c <> "_"%char /\ (nat_of_ascii c < 128)%nat)
              (list_ascii_of_string word)) ["PASSED"; "x9"]).
  { repeat (apply Forall_cons; split).
    all: try (split; [discriminate | vm_compute; lia]).
    all: constructor. }
  exact (new_key_of_snake "tests" ["PASSED"; "x9"] Hfirst Hwords).
Defined.

Example new_key_examples :
  new_key "check_time" = "checkTime" /\
  new_key "lint_success" = "lintSuccess" /\
  new_key "status" = "status" /\
  new_key "a__b" = "aB" /\
  new_key "tests_PASSED" = "testsPassed".
Proof. repeat split; reflexivity. Qed.

(** The seven attributes of a result record reach [json.dumps] under the
    keys [checkTime], [buildTime], [checkResult], [checkMessage],
    [testsPassed], [testsTotal] and [lintSuccess], each with its own value:
    no two attributes are renamed to the same key. *)
Theorem json_data_fields (r : CheckResult) :
  json_data r !! "checkTime" = Some (PyFloat (check_time r)) /\
  json_data r !! "buildTime" = Some (PyFloat (build_time r)) /\
  json_data r !! "checkResult" = Some (PyInt (check_result r)) /\
  json_data r !! "checkMessage" = Some (PyStr (check_message r)) /\
  json_data r !! "testsPassed" = Some (PyInt (Z.of_nat (tests_passed r))) /\
  json_data r !! "testsTotal" = Some (PyInt (Z.of_nat (tests_total r))) /\
  json_data r !! "lintSuccess" = Some (PyBool (lint_success r)) /\
  size (json_data r) = 7%nat.
Proof.
  unfold json_data, CheckResult_items. cbn [fold_left fst snd].
  change (new_key "check_time") with "checkTime".
  change (new_key "build_time") with "buildTime".
  change (new_key "check_result") with "checkResult".
  change (new_key "check_message") with "checkMessage".
  change (new_key "tests_passed") with "testsPassed".
  change (new_key "tests_total") with "testsTotal".
  change (new_key "lint_success") with "lintSuccess".
  repeat split; by simplify_map_eq.
Qed.

(** ** The further facts at concrete sessions *)

Lemma test_thread_result_invariant_witness :
  exists r : CheckResult,
    fst (fst (test_solution Scenario.RUNTIME_TIMEOUT Scenario.hangs_on_second
                Scenario.stdin_file_path Scenario.two_vectors Scenario.world0))
    = Some r /\
    tests_total r = length Scenario.two_vectors /\
    (tests_passed r <= length Scenario.two_vectors)%nat /\
    lint_success r = false /\
    (check_result r = STATUS_OK \/ check_result r = STATUS_CHECK_ERROR \/
     check_result r = STATUS_RUNTIME_ERROR) /\
    (check_result r = STATUS_OK ->
     tests_passed r = length Scenario.two_vectors /\ check_message r = "").
Proof.
  eexists. split; [vm_compute; reflexivity |].
  apply (test_thread_result_invariant Scenario.RUNTIME_TIMEOUT
           Scenario.hangs_on_second Scenario.stdin_file_path
           Scenario.two_vectors Scenario.world0).
  vm_compute. reflexivity.
Defined.

Lemma outlived_budget_with_raise_witness :
  exists r : CheckResult,
    fst (test_phase Scenario.RUNTIME_TIMEOUT Scenario.hangs_then_raises
           Scenario.stdin_file_path Scenario.two_vectors 0%N Scenario.world0)
    = r /\
    check_result r = STATUS_RUNTIME_TIMEOUT /\
    tests_passed r = 0%nat /\
    tests_total r = 0%nat.
Proof.
  apply (outlived_budget_with_raise Scenario.RUNTIME_TIMEOUT
           Scenario.hangs_then_raises Scenario.stdin_file_path
           Scenario.two_vectors Scenario.world0).
  - vm_compute. reflexivity.
  - reflexivity.
Defined.

Lemma raising_run_is_runtime_timeout_witness :
  exists (r : CheckResult) (w' : World),
    test_phase Scenario.RUNTIME_TIMEOUT Scenario.raises_at_once
      Scenario.stdin_file_path [("1", "1"); ("2", "2")] 0%N Scenario.world0
    = (r, w') /\
    check_result r = STATUS_RUNTIME_TIMEOUT /\
    tests_passed r = 0%nat /\
    tests_total r = 0%nat /\
    check_time r
    = duration (reply Scenario.raises_at_once (exec_calls Scenario.world0)) /\
    container_status w' = "exited" /\
    trace w' = trace Scenario.world0 ++
      [EvCreateFile Scenario.stdin_file_path (fst ("1", "1") +:+ Py.nl);
       EvExecRun run_command source_path run_environment;
       EvContainersGet; EvKill].
Proof.
  apply (raising_run_is_runtime_timeout Scenario.RUNTIME_TIMEOUT
           Scenario.raises_at_once Scenario.stdin_file_path ("1", "1")
           [("2", "2")] 0%N Scenario.world0).
  - reflexivity.
  - vm_compute. discriminate.
Defined.

Lemma session_verdict_taxonomy_witness :
  exists r : CheckResult,
    fst (Scenario.session Scenario.crash_on_second Scenario.run_only
           Scenario.two_vectors) = Returned r /\
    graded_verdict (check_result r) /\
    (tests_passed r <= tests_total r)%nat /\
    (lint_success r = true -> check_result r = STATUS_OK) /\
    check_result r <> STATUS_CHECKING /\
    check_result r <> STATUS_LINT_ERROR /\
    check_result r <> STATUS_DRAFT /\
    check_result r <> -1.
Proof.
  eexists. split; [vm_compute; reflexivity |].
  apply (session_verdict_taxonomy Scenario.BUILD_TIMEOUT
           Scenario.RUNTIME_TIMEOUT Scenario.files_to_tar string
           Scenario.lint_dict Scenario.lint_errors_to_str "/srv/checker"
           "b4c0ffee" Scenario.crash_on_second Scenario.run_only
           Scenario.two_vectors Scenario.world0
           (snd (Scenario.session Scenario.crash_on_second Scenario.run_only
                   Scenario.two_vectors))).
  vm_compute. reflexivity.
Defined.


Lemma failed_build_is_build_error_witness :
  exists (r : CheckResult) (w' : World),
    Scenario.session Scenario.broken_build Scenario.build_and_run
      Scenario.two_vectors = (Returned r, w') /\
    check_result r = STATUS_BUILD_ERROR /\
    check_message r = "main.c:1: error" /\
    build_time r = duration (reply Scenario.broken_build 0) /\
    tests_passed r = 0%nat /\
    tests_total r = length Scenario.two_vectors /\
    trace w' = trace Scenario.world0 ++
      [EvContainersRun "liokorcode_checker"; EvPutArchive;
       EvExecRun "make build" "/root/source" [];
       EvRmtree ("/srv/checker" +:+ "/solutions/" +:+ "b4c0ffee");
       EvRemoveContainer].
Proof.
  apply (failed_build_is_build_error Scenario.BUILD_TIMEOUT
           Scenario.RUNTIME_TIMEOUT Scenario.files_to_tar string
           Scenario.lint_dict Scenario.lint_errors_to_str "/srv/checker"
           "b4c0ffee" Scenario.broken_build Scenario.build_and_run
           ("build:" +:+ Py.nl +:+ String Py.TAB "gcc main.c" +:+ Py.nl
            +:+ "run:" +:+ Py.nl +:+ String Py.TAB "./a.out")
           "tar" Scenario.two_vectors (mkExecResult 2 "main.c:1: error")
           "main.c:1: error" Scenario.world0).
  - vm_compute. reflexivity.
  - apply find_contains. vm_compute. discriminate.
  - apply find_contains. vm_compute. discriminate.
  - reflexivity.
  - reflexivity.
  - vm_compute. discriminate.
  - reflexivity.
  - discriminate.
  - reflexivity.
Defined.

Lemma undecodable_build_output_raises_witness :
  exists w' : World,
    Scenario.session Scenario.garbled_build Scenario.build_and_run
      Scenario.two_vectors = (Raised "UnicodeDecodeError", w') /\
    trace w' = trace Scenario.world0 ++
      [EvContainersRun "liokorcode_checker"; EvPutArchive;
       EvExecRun "make build" "/root/source" []] /\
    ~ In EvRemoveContainer (drop (length (trace Scenario.world0)) (trace w')).
Proof.
  apply (undecodable_build_output_raises Scenario.BUILD_TIMEOUT
           Scenario.RUNTIME_TIMEOUT Scenario.files_to_tar string
           Scenario.lint_dict Scenario.lint_errors_to_str "/srv/checker"
           "b4c0ffee" Scenario.garbled_build Scenario.build_and_run
           ("build:" +:+ Py.nl +:+ String Py.TAB "gcc main.c" +:+ Py.nl
            +:+ "run:" +:+ Py.nl +:+ String Py.TAB "./a.out")
           "tar" Scenario.two_vectors (mkExecResult 2 Scenario.garbled)
           Scenario.world0).
  - vm_compute. reflexivity.
  - apply find_contains. vm_compute. discriminate.
  - apply find_contains. vm_compute. discriminate.
  - reflexivity.
  - reflexivity.
  - vm_compute. discriminate.
  - reflexivity.
  - discriminate.
  - reflexivity.
Defined.

Lemma undecodable_run_output_is_runtime_timeout_witness :
  exists (r : CheckResult) (w' : World),
    test_phase Scenario.RUNTIME_TIMEOUT Scenario.garbled_run
      Scenario.stdin_file_path [("1", "1")] 0%N Scenario.world0 = (r, w') /\
    check_result r = STATUS_RUNTIME_TIMEOUT /\
    tests_passed r = 0%nat /\
    tests_total r = 0%nat /\
    check_message r = EmptyString /\
    trace w' = trace Scenario.world0 ++
      [EvCreateFile Scenario.stdin_file_path (fst ("1", "1") +:+ Py.nl);
       EvExecRun run_command source_path run_environment;
       EvContainersGet; EvContainersGet; EvKill].
Proof.
  apply (undecodable_run_output_is_runtime_timeout Scenario.RUNTIME_TIMEOUT
           Scenario.garbled_run Scenario.stdin_file_path ("1", "1") [] 0%N
           Scenario.world0 (mkExecResult 0 Scenario.garbled)).
  - reflexivity.
  - discriminate.
  - reflexivity.
  - vm_compute. discriminate.
Defined.

Lemma session_call_framing_witness :
  exists (r : CheckResult) (w' : World),
    Scenario.session Scenario.crash_on_second Scenario.run_only
      Scenario.two_vectors = (Returned r, w') /\
    (w' = Scenario.world0 \/
     exists mid : list Event,
       trace w' = trace Scenario.world0
                  ++ [EvContainersRun "liokorcode_checker"; EvPutArchive]
                  ++ mid ++ [EvRemoveContainer] /\
       Forall (fun e =>
                 phase_call
                   (("/srv/checker" +:+ "/solutions/" +:+ "b4c0ffee")
                    +:+ "/input" +:+ "/input.txt") e \/
                 e = EvLint \/
                 e = EvRmtree ("/srv/checker" +:+ "/solutions/" +:+ "b4c0ffee"))
         mid).
Proof.
  eexists _, _. split; [vm_compute; reflexivity |].
  eapply (session_call_framing Scenario.BUILD_TIMEOUT
            Scenario.RUNTIME_TIMEOUT Scenario.files_to_tar string
            Scenario.lint_dict Scenario.lint_errors_to_str "/srv/checker"
            "b4c0ffee" Scenario.crash_on_second Scenario.run_only
            Scenario.two_vectors Scenario.world0).
  vm_compute. reflexivity.
Defined.

Lemma packaging_failure_raises_witness :
  check_task_multiple_files Scenario.BUILD_TIMEOUT Scenario.RUNTIME_TIMEOUT
    (fun _ _ => None) string Scenario.lint_dict Scenario.lint_errors_to_str
    "/srv/checker" "b4c0ffee" Scenario.all_pass Scenario.run_only
    Scenario.two_vectors Scenario.world0
  = (Raised "Unable to parse source code!", Scenario.world0).
Proof.
  apply (packaging_failure_raises Scenario.BUILD_TIMEOUT
           Scenario.RUNTIME_TIMEOUT (fun _ _ => None) string
           Scenario.lint_dict Scenario.lint_errors_to_str "/srv/checker"
           "b4c0ffee" Scenario.all_pass Scenario.run_only
           ("run:" +:+ Py.nl +:+ String Py.TAB "python3 main.py")
           Scenario.two_vectors Scenario.world0).
  - vm_compute. reflexivity.
  - apply find_contains. vm_compute. discriminate.
  - reflexivity.
Defined.

Lemma injection_failure_removes_container_witness :
  exists w' : World,
    check_task_multiple_files Scenario.BUILD_TIMEOUT Scenario.RUNTIME_TIMEOUT
      Scenario.files_to_tar string Scenario.lint_dict
      Scenario.lint_errors_to_str "/srv/checker" "b4c0ffee"
      (mkDocker (reply Scenario.all_pass) None false) Scenario.run_only
      Scenario.two_vectors Scenario.world0
    = (Raised "Unable to create requested filesystem!", w') /\
    trace w' = trace Scenario.world0 ++
      [EvContainersRun "liokorcode_checker"; EvPutArchive; EvRemoveContainer] /\
    host_files w' = host_files Scenario.world0.
Proof.
  apply (injection_failure_removes_container Scenario.BUILD_TIMEOUT
           Scenario.RUNTIME_TIMEOUT Scenario.files_to_tar string
           Scenario.lint_dict Scenario.lint_errors_to_str "/srv/checker"
           "b4c0ffee" (mkDocker (reply Scenario.all_pass) None false)
           Scenario.run_only
           ("run:" +:+ Py.nl +:+ String Py.TAB "python3 main.py")
           "tar" Scenario.two_vectors Scenario.world0).
  - vm_compute. reflexivity.
  - apply find_contains. vm_compute. discriminate.
  - reflexivity.
  - reflexivity.
Defined.

Lemma raising_build_is_build_timeout_witness :
  exists (r : CheckResult) (w' : World),
    Scenario.session Scenario.raises_at_once Scenario.build_and_run
      Scenario.two_vectors = (Returned r, w') /\
    check_result r = STATUS_BUILD_TIMEOUT /\
    build_time r = duration (reply Scenario.raises_at_once 0) /\
    tests_total r = length Scenario.two_vectors /\
    trace w' = trace Scenario.world0 ++
      [EvContainersRun "liokorcode_checker"; EvPutArchive;
       EvExecRun "make build" "/root/source" []; EvKill;
       EvRmtree ("/srv/checker" +:+ "/solutions/" +:+ "b4c0ffee");
       EvRemoveContainer].
Proof.
  apply (raising_build_is_build_timeout Scenario.BUILD_TIMEOUT
           Scenario.RUNTIME_TIMEOUT Scenario.files_to_tar string
           Scenario.lint_dict Scenario.lint_errors_to_str "/srv/checker"
           "b4c0ffee" Scenario.raises_at_once Scenario.build_and_run
           ("build:" +:+ Py.nl +:+ String Py.TAB "gcc main.c" +:+ Py.nl
            +:+ "run:" +:+ Py.nl +:+ String Py.TAB "./a.out")
           "tar" Scenario.two_vectors Scenario.world0).
  - vm_compute. reflexivity.
  - apply find_contains. vm_compute. discriminate.
  - apply find_contains. vm_compute. discriminate.
  - reflexivity.
  - reflexivity.
  - vm_compute. discriminate.
  - reflexivity.
Defined.

Lemma no_build_text_skips_build_witness :
  exists (r : CheckResult) (w' : World) (evs : list Event),
    Scenario.session Scenario.all_pass Scenario.run_only Scenario.two_vectors
      = (Returned r, w') /\
    build_time r = 0%N /\
    trace w' = trace Scenario.world0 ++ evs /\
    Forall (fun e => forall wd env, e <> EvExecRun "make build" wd env) evs.
Proof.
  apply (no_build_text_skips_build Scenario.BUILD_TIMEOUT
           Scenario.RUNTIME_TIMEOUT Scenario.files_to_tar string
           Scenario.lint_dict Scenario.lint_errors_to_str "/srv/checker"
           "b4c0ffee" Scenario.all_pass Scenario.run_only
           ("run:" +:+ Py.nl +:+ String Py.TAB "python3 main.py")
           "tar" Scenario.two_vectors Scenario.world0).
  - vm_compute. reflexivity.
  - apply find_contains. vm_compute. discriminate.
  - intros Hc. apply find_contains in Hc. by apply Hc.
  - reflexivity.
  - reflexivity.
Defined.
